(** * ASCII art generator: a shallow embedding of [ascii_art.py]

    The program opens an image with PIL, resizes it to a character grid,
    converts it to 8-bit grayscale, and maps every pixel to a character of
    an ordered ramp.  This development embeds the function
    [image_to_ascii] and the script under [if __name__ == "__main__"],
    and proves properties of the quantization, of the shape of the
    output, and of the error paths.

    Conventions.  Python integers are [Z]; Python floats are IEEE binary64
    values, here Rocq's primitive [float]; a Python [str] is a [string]
    (one [ascii] per character, so the model covers 8-bit characters);
    an exception raised inside a function is the [Raise] case of
    [result].  PIL and NumPy are not part of the repository: they enter
    as a record of operations, [Imaging], whose documented behaviour is
    the predicate [imaging_contract]. *)

From Stdlib Require Import ZArith QArith Qround Qpower List String Ascii Bool Lia.
From Stdlib Require Import PrimFloat SpecFloat FloatOps FloatAxioms.
Import ListNotations.

Local Open Scope string_scope.
Local Open Scope Z_scope.

(* ================================================================== *)
(** ** The Python runtime used by the program *)

Module Py.

(** The exception classes the body of [image_to_ascii] can meet.  All
    of them derive from [Exception]; the program raises no
    [BaseException] of another kind by itself. *)
Inductive exn_class : Type :=
| FileNotFoundError
| PermissionError
| IsADirectoryError
| UnidentifiedImageError
| ZeroDivisionError
| ValueError
| OverflowError
| IndexError
| TypeError
| MemoryError.

(** An exception object: its class and [str(e)]. *)
Record exn : Type := Exn { exn_cls : exn_class; exn_str : string }.

Inductive result (A : Type) : Type :=
| Ok (a : A)
| Raise (e : exn).
Arguments Ok {A} a.
Arguments Raise {A} e.

Definition bind {A B : Type} (m : result A) (k : A -> result B) : result B :=
  match m with
  | Ok a => k a
  | Raise e => Raise e
  end.

(** [isinstance(e, FileNotFoundError)]: the class has no subclass. *)
Definition is_FileNotFoundError (e : exn) : bool :=
  match exn_cls e with
  | FileNotFoundError => true
  | _ => false
  end.

(** [isinstance(e, OSError)] for a failure to open the file itself. *)
Definition is_open_failure (e : exn) : bool :=
  match exn_cls e with
  | FileNotFoundError | PermissionError | IsADirectoryError => true
  | _ => false
  end.

(** [len(s)]. *)
Definition len (s : string) : Z := Z.of_nat (String.length s).

(** [s[i]] for an integer [i]: a negative index counts from the end,
    and an index outside [-len(s) .. len(s)-1] raises [IndexError]. *)
Definition str_getitem (s : string) (i : Z) : result ascii :=
  let j := if i <? 0 then i + len s else i in
  if (j <? 0) || (len s <=? j)
  then Raise (Exn IndexError "string index out of range")
  else match String.get (Z.to_nat j) s with
       | Some c => Ok c
       | None => Raise (Exn IndexError "string index out of range")
       end.

(** [a // b] on integers. *)
Definition floordiv (a b : Z) : result Z :=
  if b =? 0
  then Raise (Exn ZeroDivisionError "integer division or modulo by zero")
  else Ok (a / b).

(** [float(n)]: the nearest binary64 value, ties to even; infinite
    when [n] is beyond the range of a float. *)
Definition float_of_int (n : Z) : float :=
  SF2Prim (binary_normalize prec emax n 0 false).

(** [a / b] on integers (true division).  The quotient of the two
    converted operands is the correctly rounded result as long as both
    are below 2^53 in absolute value, which the sides of an image are. *)
Definition truediv (a b : Z) : result float :=
  if b =? 0
  then Raise (Exn ZeroDivisionError "division by zero")
  else Ok (float_of_int a / float_of_int b)%float.

(** [x * n] for a float [x] and an integer [n]: [n] is converted first,
    and the conversion raises when [n] does not fit a float. *)
Definition float_mul_int (x : float) (n : Z) : result float :=
  let y := float_of_int n in
  if is_infinity y
  then Raise (Exn OverflowError "int too large to convert to float")
  else Ok (x * y)%float.

(** [int(x)] for a float: truncation toward zero. *)
Definition int_of_float (x : float) : result Z :=
  match Prim2SF x with
  | S754_nan => Raise (Exn ValueError "cannot convert float NaN to integer")
  | S754_infinity _ =>
      Raise (Exn OverflowError "cannot convert float infinity to integer")
  | S754_zero _ => Ok 0
  | S754_finite s m e =>
      let a := if 0 <=? e then Z.pos m * 2 ^ e else Z.pos m / 2 ^ (- e) in
      Ok (if s then - a else a)
  end.

(** ["\n"]. *)
Definition newline : string := String "010"%char EmptyString.

(** [sep.join(rows)]. *)
Definition join (sep : string) (rows : list string) : string :=
  String.concat sep rows.

(** [s.startswith(p)]. *)
Definition startswith (s p : string) : bool := String.prefix p s.

(** [s.lower()] on the letters A-Z. *)
Definition lower_char (c : ascii) : ascii :=
  let n := nat_of_ascii c in
  if (65 <=? n)%nat && (n <=? 90)%nat then ascii_of_nat (n + 32) else c.

Fixpoint lower (s : string) : string :=
  match s with
  | EmptyString => EmptyString
  | String c r => String (lower_char c) (lower r)
  end.

(** [sub in s]. *)
Definition contains (sub s : string) : bool :=
  match String.index 0 sub s with
  | Some _ => true
  | None => false
  end.

(** [s.split("\n")]: the pieces between the separators, with the piece
    being read kept in [cur]. *)
Fixpoint split_lines_from (cur s : string) : list string :=
  match s with
  | EmptyString => [cur]
  | String c r =>
      if Ascii.eqb c "010"
      then cur :: split_lines_from EmptyString r
      else split_lines_from (cur ++ String c EmptyString) r
  end.

Definition split_lines (s : string) : list string :=
  split_lines_from EmptyString s.

End Py.

Import Py.

Notation "x <- m ;; k" := (Py.bind m (fun x => k))
  (at level 61, m at next level, right associativity).

(* ================================================================== *)
(** ** NumPy scalars *)

Module Np.

(** [pixel // d] for a [uint8] scalar [pixel] and a Python integer [d]
    in [0, 255].  NumPy's integer floor division by zero does not
    raise: it warns and yields 0.  The quotient of an 8-bit value by a
    positive integer is again an 8-bit value, so nothing wraps. *)
Definition floor_divide (pixel d : Z) : Z :=
  if d =? 0 then 0 else pixel / d.

End Np.

(* ================================================================== *)
(** ** The imaging library *)

(** The operations of PIL and NumPy the program calls.  [image_size] is
    [(width, height)]; [np_array] of a mode-L image is its matrix of
    rows. *)
Record Imaging : Type := {
  image : Type;
  Image_open : string -> result image;
  image_size : image -> Z * Z;
  image_mode : image -> string;
  image_resize : image -> Z * Z -> result image;
  image_convert : image -> string -> result image;
  np_array : image -> result (list (list Z))
}.

Definition uint8 (p : Z) : Prop := 0 <= p <= 255.

(** What the program relies on: a resized image has the size asked for,
    a conversion keeps the size and sets the mode, and the array of a
    mode-L image has [height] rows of [width] 8-bit values. *)
Record imaging_contract (lib : Imaging) : Prop := {
  resize_size : forall im sz im',
    image_resize lib im sz = Ok im' -> image_size lib im' = sz;
  convert_size_mode : forall im m im',
    image_convert lib im m = Ok im' ->
    image_size lib im' = image_size lib im /\ image_mode lib im' = m;
  array_shape : forall im px,
    image_mode lib im = "L" ->
    np_array lib im = Ok px ->
    Z.of_nat (List.length px) = snd (image_size lib im) /\
    Forall (fun row => Z.of_nat (List.length row) = fst (image_size lib im) /\
                       Forall uint8 row) px
}.

(* ================================================================== *)
(** ** [image_to_ascii] *)

Definition default_columns : Z := 80.
Definition default_scale : float := 0.5%float.
Definition default_chars : string := " .,:;ox%#@".

(** [new_height = int(scale * aspect_ratio * new_width)] with
    [aspect_ratio = height / width]. *)
Definition new_height_of (scale : float) (width height new_width : Z)
  : result Z :=
  aspect_ratio <- truediv height width ;;
  x <- float_mul_int (scale * aspect_ratio)%float new_width ;;
  int_of_float x.

(** [pixel_range = 255 // len(chars)]. *)
Definition pixel_range_of (chars : string) : result Z :=
  floordiv 255 (len chars).

(** The two assignments to [index] in the inner loop. *)
Definition pixel_index (chars : string) (pixel_range pixel : Z) : Z :=
  let index := Np.floor_divide pixel pixel_range in
  Z.min index (len chars - 1).

(** The inner loop: [row_chars] grows by one character per pixel. *)
Fixpoint render_row (chars : string) (pixel_range : Z) (row : list Z)
    (row_chars : string) : result string :=
  match row with
  | [] => Ok row_chars
  | pixel :: rest =>
      c <- str_getitem chars (pixel_index chars pixel_range pixel) ;;
      render_row chars pixel_range rest (row_chars ++ String c EmptyString)
  end.

(** The outer loop: [ascii_art] grows by one row string per matrix row. *)
Fixpoint render_rows (chars : string) (pixel_range : Z)
    (pixel_values : list (list Z)) (ascii_art : list string)
  : result (list string) :=
  match pixel_values with
  | [] => Ok ascii_art
  | row :: rest =>
      row_chars <- render_row chars pixel_range row EmptyString ;;
      render_rows chars pixel_range rest (ascii_art ++ [row_chars])
  end.

(** What the script can change: the lines printed and the files
    written. *)
Record world : Type := World {
  stdout : list string;
  files : string -> option string
}.

(** [print(s)]. *)
Definition print (s : string) (w : world) : world :=
  World (stdout w ++ [s]) (files w).

(** [with open(path, 'w') as f: f.write(s)]. *)
Definition write_file (path s : string) (w : world) : world :=
  World (stdout w)
        (fun p => if String.eqb p path then Some s else files w p).

Section Renderer.

Variable lib : Imaging.

(** From [Image.open] to [np.array]: the grayscale matrix of the
    resized image. *)
Definition pixel_values_of (file_path : string) (columns : Z)
    (scale : float) : result (list (list Z)) :=
  image <- Image_open lib file_path ;;
  let '(width, height) := image_size lib image in
  let new_width := columns in
  new_height <- new_height_of scale width height new_width ;;
  resized_image <- image_resize lib image (new_width, new_height) ;;
  grayscale_image <- image_convert lib resized_image "L" ;;
  np_array lib grayscale_image.

(** The [try] block. *)
Definition image_to_ascii_try (file_path : string) (columns : Z)
    (scale : float) (chars : string) : result string :=
  pixel_values <- pixel_values_of file_path columns scale ;;
  pixel_range <- pixel_range_of chars ;;
  ascii_art <- render_rows chars pixel_range pixel_values [] ;;
  Ok (join newline ascii_art).

(** The function: the [try] block with its two handlers. *)
Definition image_to_ascii (file_path : string) (columns : Z)
    (scale : float) (chars : string) : string :=
  match image_to_ascii_try file_path columns scale chars with
  | Ok ascii_art => ascii_art
  | Raise e =>
      if is_FileNotFoundError e
      then "Error: The file was not found. Check the file path."
      else "An error occurred: " ++ exn_str e
  end.

(** *** The script *)

(** The body under [__main__], for an input and an output path. *)
Definition script (image_path output_path : string) (w : world) : world :=
  let ascii_art :=
    image_to_ascii image_path default_columns default_scale default_chars in
  if startswith ascii_art "Error:"
  then print ascii_art w
  else write_file output_path ascii_art w.

Definition main : world -> world := script "img.png" "ascii_art.txt".

End Renderer.

(* ================================================================== *)
(** ** The quantization as the specification words it *)

Module Spec.

(** [pixel_range = floor(255 / len(ramp))]. *)
Definition pixel_range (ramp : string) : Z := 255 / len ramp.

(** [index = min(floor(p / pixel_range), len(ramp) - 1)]. *)
Definition index (ramp : string) (p : Z) : Z :=
  Z.min (p / pixel_range ramp) (len ramp - 1).

(** [ramp[i]] for a position [i] of the ramp. *)
Definition ramp_at (ramp : string) (i : Z) : option ascii :=
  if i <? 0 then None else String.get (Z.to_nat i) ramp.

(** The row string of a matrix row: one ramp character per pixel, in
    order. *)
Fixpoint row_string (ramp : string) (row : list Z) : option string :=
  match row with
  | [] => Some EmptyString
  | p :: rest =>
      match ramp_at ramp (index ramp p), row_string ramp rest with
      | Some c, Some s => Some (String c s)
      | _, _ => None
      end
  end.

(** The number [m * 2^e], the absolute value of a finite float with
    mantissa [m] and exponent [e]. *)
Definition magnitude (m : positive) (e : Z) : Q :=
  (inject_Z (Z.pos m) * 2 ^ e)%Q.

(** The number a float stands for; none for NaN and the infinities. *)
Definition float_value (x : float) : option Q :=
  match Prim2SF x with
  | S754_zero _ => Some 0%Q
  | S754_finite s m e => Some (if s then (- magnitude m e)%Q else magnitude m e)
  | S754_infinity _ => None
  | S754_nan => None
  end.

(** [int(q)]: the integer part of a number, toward zero. *)
Definition int_part (q : Q) : Z :=
  if Qle_bool 0 q then Qfloor q else Qceiling q.

(** [new_height = int(scale * (original_height / original_width) *
    new_width)], the product and the quotient being those of binary64
    floats. *)
Definition new_height (scale : float)
    (original_width original_height new_width : Z) : option Z :=
  option_map int_part
    (float_value
       (scale * (float_of_int original_height / float_of_int original_width)
        * float_of_int new_width)%float).

End Spec.

(* ================================================================== *)
(** ** A small imaging library, to run the program on

    Images of one solid colour: enough to evaluate the program on
    concrete files.  [resize] refuses an empty size as PIL does. *)

Module Solid.

Record img : Type := Img {
  width : Z;
  height : Z;
  gray : Z;
  mode : string
}.

Definition resize (im : img) (sz : Z * Z) : result img :=
  let '(w, h) := sz in
  if (w <? 1) || (h <? 1)
  then Raise (Exn ValueError "height and width must be > 0")
  else Ok (Img w h (gray im) (mode im)).

Definition convert (im : img) (m : string) : result img :=
  Ok (Img (width im) (height im) (gray im) m).

Definition array (im : img) : result (list (list Z)) :=
  if (width im <? 0) || (height im <? 0)
  then Raise (Exn ValueError "negative dimensions are not allowed")
  else Ok (repeat (repeat (Z.max 0 (Z.min 255 (gray im)))
                          (Z.to_nat (width im)))
                  (Z.to_nat (height im))).

(** A file system: what opening each path gives; a path that is not
    listed does not exist. *)
Definition filesystem : Type := list (string * result img).

Fixpoint open (fs : filesystem) (path : string) : result img :=
  match fs with
  | [] => Raise (Exn FileNotFoundError
                     ("[Errno 2] No such file or directory: '" ++ path ++ "'"))
  | (p, r) :: rest => if String.eqb p path then r else open rest path
  end.

Definition lib (fs : filesystem) : Imaging :=
  {| image := img;
     Image_open := open fs;
     image_size := fun im => (width im, height im);
     image_mode := mode;
     image_resize := resize;
     image_convert := convert;
     np_array := array |}.

(** A white 10x10 picture, a 4x3 mid-gray picture, a file that is not
    an image, and a file the user may not read. *)
Definition demo : filesystem :=
  [ ("white.png", Ok (Img 10 10 255 "RGB"));
    ("gray.png", Ok (Img 4 3 100 "RGB"));
    ("img.png",
      Raise (Exn UnidentifiedImageError "cannot identify image file 'img.png'"));
    ("secret.png",
      Raise (Exn PermissionError "[Errno 13] Permission denied: 'secret.png'")) ].

(** A directory where the path the script reads is a picture. *)
Definition demo_ok : filesystem :=
  [ ("img.png", Ok (Img 4 3 100 "RGB")) ].

Definition empty_world : world := World [] (fun _ => None).

(** A ramp of 256 characters. *)
Definition long_ramp : string := string_of_list_ascii (repeat "#"%char 256).

End Solid.

(* ================================================================== *)
(** ** Predicates of the statements *)

(** What one character of a row string is: the ramp character at the
    index of its pixel. *)
Definition rendered (chars : string) (pixel_range : Z) (pixel : Z) (c : ascii)
  : Prop :=
  String.get (Z.to_nat (pixel_index chars pixel_range pixel)) chars = Some c.

(** What one row string is. *)
Definition row_rendered (chars : string) (pixel_range : Z) (row : list Z)
    (s : string) : Prop :=
  Forall2 (rendered chars pixel_range) row (list_ascii_of_string s).

(** The string holds no newline character. *)
Definition no_newline (s : string) : Prop :=
  ~ In "010"%char (list_ascii_of_string s).

(** The library draws [im] white at size [sz]: resizing, converting and
    reading the array succeed, and every value read is 255. *)
Definition renders_white (lib : Imaging) (im : image lib) (sz : Z * Z) : Prop :=
  exists resized grayscale px,
    image_resize lib im sz = Ok resized /\
    image_convert lib resized "L" = Ok grayscale /\
    np_array lib grayscale = Ok px /\
    Forall (Forall (eq 255)) px.

(** The row string [s] spells the positions [idx] of the ramp. *)
Definition spells (chars : string) (idx : list Z) (s : string) : Prop :=
  Forall2 (fun i c => String.get (Z.to_nat i) chars = Some c)
          idx (list_ascii_of_string s).

(** PIL's [resize] raises for a size with a side below 1. *)
Definition refuses_empty_size (lib : Imaging) : Prop :=
  forall im w h,
    w < 1 \/ h < 1 -> exists e, image_resize lib im (w, h) = Raise e.

(* ================================================================== *)
(** ** Arithmetic of the quantization *)

Lemma len_nonneg (s : string) : 0 <= len s.
Proof. unfold len. lia. Qed.

Lemma pixel_range_of_ok (chars : string) :
  1 <= len chars -> pixel_range_of chars = Ok (255 / len chars).
Proof.
  intros H. unfold pixel_range_of, floordiv.
  destruct (Z.eqb_spec (len chars) 0); [lia | reflexivity].
Qed.

Lemma pixel_range_pos (n : Z) : 1 <= n <= 255 -> 1 <= 255 / n.
Proof.
  intros H. apply Z.div_le_lower_bound; lia.
Qed.

Lemma floor_divide_nonneg (p d : Z) :
  0 <= p -> 0 <= d -> 0 <= Np.floor_divide p d.
Proof.
  intros Hp Hd. unfold Np.floor_divide.
  destruct (Z.eqb_spec d 0); [lia | apply Z.div_pos; lia].
Qed.

Lemma floor_divide_mono (p1 p2 d : Z) :
  0 <= d -> p1 <= p2 -> Np.floor_divide p1 d <= Np.floor_divide p2 d.
Proof.
  intros Hd Hp. unfold Np.floor_divide.
  destruct (Z.eqb_spec d 0); [lia | apply Z.div_le_mono; lia].
Qed.

Lemma pixel_index_bounds (chars : string) (r p : Z) :
  1 <= len chars -> 0 <= r -> 0 <= p ->
  0 <= pixel_index chars r p <= len chars - 1.
Proof.
  intros Hn Hr Hp. unfold pixel_index.
  pose proof (floor_divide_nonneg p r Hp Hr). lia.
Qed.

(** The top of the scale: [255 // (255 // n)] is at least [n - 1]. *)
Lemma top_quotient (n : Z) : 1 <= n <= 255 -> n - 1 <= 255 / (255 / n).
Proof.
  intros H.
  pose proof (pixel_range_pos n H) as Hr.
  apply Z.div_le_lower_bound; [lia |].
  pose proof (Z.mul_div_le 255 n ltac:(lia)).
  nia.
Qed.

Lemma get_in_range (s : string) :
  forall n, (n < String.length s)%nat -> exists c, String.get n s = Some c.
Proof.
  induction s as [| a s IH]; intros n Hn; simpl in *.
  - lia.
  - destruct n as [| n].
    + exists a. reflexivity.
    + apply IH. lia.
Qed.

Lemma str_getitem_in_range (s : string) (i : Z) :
  0 <= i < len s ->
  exists c, str_getitem s i = Ok c /\ String.get (Z.to_nat i) s = Some c.
Proof.
  intros [H0 H1]. unfold str_getitem.
  destruct (Z.ltb_spec i 0); [lia |].
  destruct (Z.ltb_spec i 0); [lia |].
  destruct (Z.leb_spec (len s) i); [lia |]. simpl.
  destruct (get_in_range s (Z.to_nat i)) as [c Hc].
  - unfold len in H1. lia.
  - exists c. rewrite Hc. split; reflexivity.
Qed.

(* ================================================================== *)
(** ** Strings *)

Lemma append_assoc (a b c : string) : ((a ++ b) ++ c = a ++ (b ++ c))%string.
Proof.
  induction a as [| x a IH]; simpl; [reflexivity | now rewrite IH].
Qed.

Lemma append_empty_r (a : string) : (a ++ EmptyString)%string = a.
Proof.
  induction a as [| x a IH]; simpl; [reflexivity | now rewrite IH].
Qed.

Lemma length_list_ascii (s : string) :
  List.length (list_ascii_of_string s) = String.length s.
Proof.
  induction s as [| x s IH]; simpl; [reflexivity | now rewrite IH].
Qed.

Lemma get_In (s : string) :
  forall n c, String.get n s = Some c -> In c (list_ascii_of_string s).
Proof.
  induction s as [| x s IH]; intros n c H; simpl in *.
  - discriminate.
  - destruct n as [| n].
    + injection H as ->. now left.
    + right. eapply IH; eassumption.
Qed.

(* ================================================================== *)
(** ** The loops *)

Lemma render_row_acc (chars : string) (r : Z) :
  1 <= len chars -> 0 <= r ->
  forall row acc,
    Forall uint8 row ->
    exists s,
      render_row chars r row acc = Ok (acc ++ s)%string /\
      row_rendered chars r row s.
Proof.
  intros Hn Hr row.
  induction row as [| p row IH]; intros acc Hrow.
  - exists EmptyString. simpl. rewrite append_empty_r.
    split; [reflexivity | constructor].
  - inversion Hrow as [| ? ? Hp Hrest]; subst.
    destruct (str_getitem_in_range chars (pixel_index chars r p)) as (c & Hc & Hg).
    { pose proof (pixel_index_bounds chars r p Hn Hr (proj1 Hp)). lia. }
    destruct (IH (acc ++ String c EmptyString)%string Hrest) as (s & Hs & Hf).
    exists (String c s). simpl. rewrite Hc. simpl. rewrite Hs.
    rewrite append_assoc. simpl.
    split; [reflexivity | constructor; assumption].
Qed.

Lemma render_row_ok (chars : string) (r : Z) (row : list Z) :
  1 <= len chars -> 0 <= r -> Forall uint8 row ->
  exists s,
    render_row chars r row EmptyString = Ok s /\ row_rendered chars r row s.
Proof.
  intros Hn Hr Hrow.
  destruct (render_row_acc chars r Hn Hr row EmptyString Hrow) as (s & Hs & Hf).
  exists s. split; assumption.
Qed.

Lemma render_rows_acc (chars : string) (r : Z) :
  1 <= len chars -> 0 <= r ->
  forall px acc,
    Forall (Forall uint8) px ->
    exists rows,
      render_rows chars r px acc = Ok (acc ++ rows)%list /\
      Forall2 (row_rendered chars r) px rows.
Proof.
  intros Hn Hr px.
  induction px as [| row px IH]; intros acc Hpx.
  - exists []. simpl. rewrite app_nil_r. split; [reflexivity | constructor].
  - inversion Hpx as [| ? ? Hrow Hrest]; subst.
    destruct (render_row_ok chars r row Hn Hr Hrow) as (s & Hs & Hf).
    destruct (IH (acc ++ [s])%list Hrest) as (rows & Hrows & Hall).
    exists (s :: rows). simpl. rewrite Hs. simpl. rewrite Hrows.
    rewrite <- app_assoc. simpl.
    split; [reflexivity | constructor; assumption].
Qed.

Lemma render_rows_ok (chars : string) (r : Z) (px : list (list Z)) :
  1 <= len chars -> 0 <= r -> Forall (Forall uint8) px ->
  exists rows,
    render_rows chars r px [] = Ok rows /\
    Forall2 (row_rendered chars r) px rows.
Proof.
  intros Hn Hr Hpx.
  exact (render_rows_acc chars r Hn Hr px [] Hpx).
Qed.

Lemma row_rendered_length (chars : string) (r : Z) (row : list Z) (s : string) :
  row_rendered chars r row s -> String.length s = List.length row.
Proof.
  intros H. apply Forall2_length in H.
  rewrite length_list_ascii in H. congruence.
Qed.

Lemma pixel_range_of_nonneg (chars : string) (r : Z) :
  pixel_range_of chars = Ok r -> 1 <= len chars /\ 0 <= r /\ r = 255 / len chars.
Proof.
  unfold pixel_range_of, floordiv. intros H.
  pose proof (len_nonneg chars).
  destruct (Z.eqb_spec (len chars) 0); [discriminate |].
  injection H as <-.
  repeat split; [lia | apply Z.div_pos; lia].
Qed.

(* ================================================================== *)
(** ** From the file to the matrix *)

Lemma bind_ok {A B : Type} (m : result A) (k : A -> result B) (b : B) :
  bind m k = Ok b -> exists a, m = Ok a /\ k a = Ok b.
Proof.
  destruct m as [a | e]; simpl; intros H; [| discriminate].
  exists a. split; [reflexivity | assumption].
Qed.

Lemma pixel_values_shape (lib : Imaging) (file_path : string) (columns : Z)
    (scale : float) (px : list (list Z)) :
  imaging_contract lib ->
  pixel_values_of lib file_path columns scale = Ok px ->
  exists im new_height,
    Image_open lib file_path = Ok im /\
    new_height_of scale (fst (image_size lib im)) (snd (image_size lib im))
                  columns = Ok new_height /\
    Z.of_nat (List.length px) = new_height /\
    Forall (fun row => Z.of_nat (List.length row) = columns /\ Forall uint8 row)
           px.
Proof.
  intros Hc H. unfold pixel_values_of in H.
  apply bind_ok in H. destruct H as (im & Hopen & H).
  destruct (image_size lib im) as [width height] eqn:Hsize.
  apply bind_ok in H. destruct H as (new_height & Hh & H).
  apply bind_ok in H. destruct H as (resized & Hres & H).
  apply bind_ok in H. destruct H as (grayscale & Hconv & Harr).
  apply (resize_size lib Hc) in Hres.
  apply (convert_size_mode lib Hc) in Hconv. destruct Hconv as [Hsz Hmode].
  destruct (array_shape lib Hc grayscale px Hmode Harr) as [Hrows Hcols].
  rewrite Hsz, Hres in Hrows, Hcols. simpl in Hrows, Hcols.
  exists im, new_height. rewrite Hsize. simpl.
  repeat split; assumption.
Qed.

Lemma pixel_values_uint8 (lib : Imaging) (file_path : string) (columns : Z)
    (scale : float) (px : list (list Z)) :
  imaging_contract lib ->
  pixel_values_of lib file_path columns scale = Ok px ->
  Forall (Forall uint8) px.
Proof.
  intros Hc H.
  destruct (pixel_values_shape lib file_path columns scale px Hc H)
    as (im & n & _ & _ & _ & Hall).
  eapply Forall_impl; [| exact Hall]. intros row [_ Hrow]. exact Hrow.
Qed.

(** The [try] block once the matrix is there and the ramp is not empty:
    it cannot raise, and its rows are the rendered matrix rows. *)
Lemma try_from_matrix (lib : Imaging) (file_path : string) (columns : Z)
    (scale : float) (chars : string) (px : list (list Z)) :
  pixel_values_of lib file_path columns scale = Ok px ->
  Forall (Forall uint8) px ->
  1 <= len chars ->
  exists rows,
    image_to_ascii_try lib file_path columns scale chars
      = Ok (join newline rows) /\
    Forall2 (row_rendered chars (255 / len chars)) px rows.
Proof.
  intros Hpx Hall Hn.
  assert (Hr : 0 <= 255 / len chars) by (apply Z.div_pos; lia).
  destruct (render_rows_ok chars (255 / len chars) px Hn Hr Hall)
    as (rows & Hrows & Hf).
  exists rows. split; [| exact Hf].
  unfold image_to_ascii_try. rewrite Hpx. simpl.
  rewrite (pixel_range_of_ok chars Hn). simpl.
  rewrite Hrows. reflexivity.
Qed.

Lemma image_to_ascii_of_try (lib : Imaging) (file_path : string) (columns : Z)
    (scale : float) (chars s : string) :
  image_to_ascii_try lib file_path columns scale chars = Ok s ->
  image_to_ascii lib file_path columns scale chars = s.
Proof.
  intros H. unfold image_to_ascii. rewrite H. reflexivity.
Qed.

(* ================================================================== *)
(** ** The small library keeps the contract *)

Lemma repeat_Forall {A : Type} (P : A -> Prop) (x : A) (n : nat) :
  P x -> Forall P (repeat x n).
Proof.
  intros H. induction n as [| n IH]; simpl; constructor; assumption.
Qed.

Lemma solid_contract (fs : Solid.filesystem) : imaging_contract (Solid.lib fs).
Proof.
  constructor; simpl.
  - intros im [w h] im'. unfold Solid.resize.
    destruct ((w <? 1) || (h <? 1)); [discriminate |].
    intros H. injection H as <-. reflexivity.
  - intros im m im'. unfold Solid.convert.
    intros H. injection H as <-. simpl. split; reflexivity.
  - intros im px _. unfold Solid.array.
    destruct (Z.ltb_spec (Solid.width im) 0) as [Hw | Hw]; simpl;
      [discriminate |].
    destruct (Z.ltb_spec (Solid.height im) 0) as [Hh | Hh]; simpl;
      [discriminate |].
    intros E. injection E as <-. rewrite repeat_length. split; [lia |].
    apply repeat_Forall. rewrite repeat_length. split; [lia |].
    apply repeat_Forall. unfold uint8. lia.
Qed.

(* ================================================================== *)
(** ** The ramp index *)

(** C9.  For a ramp of 1 to 255 characters and a pixel value in
    [0, 255], [pixel_range] is computed without error and is not zero,
    the index is [min(pixel // (255 // len), len - 1)], it lies in
    [0, len - 1], and indexing the ramp with it raises nothing. *)
Theorem index_in_bounds (chars : string) (pixel : Z) :
  1 <= len chars <= 255 ->
  uint8 pixel ->
  exists pixel_range,
    pixel_range_of chars = Ok pixel_range /\
    pixel_range = 255 / len chars /\
    pixel_range <> 0 /\
    pixel_index chars pixel_range pixel
      = Z.min (pixel / pixel_range) (len chars - 1) /\
    0 <= pixel_index chars pixel_range pixel <= len chars - 1 /\
    exists c, str_getitem chars (pixel_index chars pixel_range pixel) = Ok c.
Proof.
  intros Hn Hp.
  pose proof (pixel_range_pos (len chars) Hn) as Hr.
  exists (255 / len chars).
  split; [apply pixel_range_of_ok; lia |].
  split; [reflexivity |].
  split; [lia |].
  assert (Hb : 0 <= pixel_index chars (255 / len chars) pixel <= len chars - 1)
    by (apply pixel_index_bounds; unfold uint8 in Hp; lia).
  split.
  - unfold pixel_index, Np.floor_divide.
    destruct (Z.eqb_spec (255 / len chars) 0); [lia | reflexivity].
  - split; [exact Hb |].
    destruct (str_getitem_in_range chars
                (pixel_index chars (255 / len chars) pixel)) as (c & Hc & _);
      [lia |].
    exists c. exact Hc.
Qed.

Lemma index_in_bounds_witness :
  exists pixel_range,
    pixel_range_of default_chars = Ok pixel_range /\
    pixel_range = 255 / len default_chars /\
    pixel_range <> 0 /\
    pixel_index default_chars pixel_range 255
      = Z.min (255 / pixel_range) (len default_chars - 1) /\
    0 <= pixel_index default_chars pixel_range 255 <= len default_chars - 1 /\
    exists c,
      str_getitem default_chars (pixel_index default_chars pixel_range 255)
        = Ok c.
Proof.
  apply (index_in_bounds default_chars 255).
  - vm_compute. split; discriminate.
  - unfold uint8. lia.
Defined.

(** C3, as stated, fails: with a ramp of 256 characters [pixel_range] is
    0, the division of the pixel by it yields 0, and pixel value 255 is
    drawn with the first character, not with the last. *)
Lemma white_not_last_for_long_ramp :
  len Solid.long_ramp = 256 /\
  pixel_range_of Solid.long_ramp = Ok 0 /\
  pixel_index Solid.long_ramp 0 255 = 0 /\
  pixel_index Solid.long_ramp 0 255 <> len Solid.long_ramp - 1.
Proof.
  vm_compute. repeat split; discriminate.
Qed.

(** C3, amended.  For a ramp of 1 to 255 characters, pixel value 255
    gets index [len - 1], and indexing the ramp there yields its last
    character without error. *)
Theorem white_maps_to_last_char (chars : string) :
  1 <= len chars <= 255 ->
  exists pixel_range c,
    pixel_range_of chars = Ok pixel_range /\
    pixel_index chars pixel_range 255 = len chars - 1 /\
    str_getitem chars (pixel_index chars pixel_range 255) = Ok c /\
    String.get (String.length chars - 1) chars = Some c.
Proof.
  intros Hn.
  pose proof (pixel_range_pos (len chars) Hn) as Hr.
  pose proof (top_quotient (len chars) Hn) as Ht.
  assert (Hi : pixel_index chars (255 / len chars) 255 = len chars - 1).
  { unfold pixel_index, Np.floor_divide.
    destruct (Z.eqb_spec (255 / len chars) 0); lia. }
  destruct (str_getitem_in_range chars (len chars - 1)) as (c & Hc & Hg);
    [lia |].
  exists (255 / len chars), c.
  split; [apply pixel_range_of_ok; lia |].
  split; [exact Hi |].
  rewrite Hi. split; [exact Hc |].
  replace (String.length chars - 1)%nat with (Z.to_nat (len chars - 1))
    by (unfold len; lia).
  exact Hg.
Qed.

Lemma white_maps_to_last_char_witness :
  exists pixel_range c,
    pixel_range_of default_chars = Ok pixel_range /\
    pixel_index default_chars pixel_range 255 = len default_chars - 1 /\
    str_getitem default_chars (pixel_index default_chars pixel_range 255)
      = Ok c /\
    String.get (String.length default_chars - 1) default_chars = Some c.
Proof.
  apply (white_maps_to_last_char default_chars).
  vm_compute. split; discriminate.
Defined.

(** C6.  Whenever [pixel_range] is defined for the ramp (the ramp is not
    empty), a darker pixel never gets a larger index than a brighter
    one. *)
Theorem index_monotone (chars : string) (pixel_range p1 p2 : Z) :
  pixel_range_of chars = Ok pixel_range ->
  uint8 p1 -> uint8 p2 -> p1 < p2 ->
  pixel_index chars pixel_range p1 <= pixel_index chars pixel_range p2.
Proof.
  intros Hr _ _ Hlt.
  apply pixel_range_of_nonneg in Hr. destruct Hr as (_ & Hr & _).
  unfold pixel_index.
  pose proof (floor_divide_mono p1 p2 pixel_range Hr ltac:(lia)).
  lia.
Qed.

Lemma index_monotone_witness :
  pixel_index default_chars 25 99 <= pixel_index default_chars 25 100.
Proof.
  apply (index_monotone default_chars 25 99 100).
  - reflexivity.
  - unfold uint8. lia.
  - unfold uint8. lia.
  - lia.
Defined.

(* ================================================================== *)
(** ** The rendering against the specification's formula *)

Lemma pixel_index_is_spec (chars : string) (p : Z) :
  1 <= len chars <= 255 ->
  pixel_index chars (255 / len chars) p = Spec.index chars p.
Proof.
  intros Hn. pose proof (pixel_range_pos (len chars) Hn) as Hr.
  unfold pixel_index, Spec.index, Spec.pixel_range, Np.floor_divide.
  destruct (Z.eqb_spec (255 / len chars) 0); [lia | reflexivity].
Qed.

Lemma row_rendered_is_spec (chars : string) :
  1 <= len chars <= 255 ->
  forall row s,
    Forall uint8 row ->
    row_rendered chars (255 / len chars) row s ->
    Spec.row_string chars row = Some s.
Proof.
  intros Hn row.
  pose proof (pixel_range_pos (len chars) Hn) as Hr.
  induction row as [| p row IH]; intros s Hrow H; unfold row_rendered in H.
  - destruct s; simpl in H; inversion H. reflexivity.
  - destruct s as [| c s]; simpl in H; inversion H as [| ? ? ? ? Hc Hrest]; subst.
    inversion Hrow as [| ? ? Hp Hrow']; subst.
    simpl. rewrite (IH s Hrow' Hrest).
    unfold rendered in Hc. rewrite (pixel_index_is_spec chars p Hn) in Hc.
    unfold Spec.ramp_at.
    assert (H0 : 0 <= Spec.index chars p).
    { rewrite <- (pixel_index_is_spec chars p Hn).
      apply pixel_index_bounds; unfold uint8 in Hp; lia. }
    destruct (Z.ltb_spec (Spec.index chars p) 0); [lia |].
    rewrite Hc. reflexivity.
Qed.

Lemma row_string_get (ramp : string) :
  forall row s,
    Spec.row_string ramp row = Some s ->
    forall j p,
      nth_error row j = Some p ->
      exists c,
        String.get j s = Some c /\
        Spec.ramp_at ramp (Spec.index ramp p) = Some c.
Proof.
  induction row as [| q row IH]; intros s Hs j p Hj.
  - destruct j; discriminate.
  - simpl in Hs.
    destruct (Spec.ramp_at ramp (Spec.index ramp q)) as [c |] eqn:Hc;
      [| discriminate].
    destruct (Spec.row_string ramp row) as [t |] eqn:Ht; [| discriminate].
    injection Hs as <-.
    destruct j as [| j]; simpl in Hj.
    + injection Hj as <-. exists c. split; [reflexivity | exact Hc].
    + simpl. exact (IH t eq_refl j p Hj).
Qed.

(** C1.  When the image at [file_path] yields a grayscale matrix and the
    ramp has 1 to 255 characters, the function returns the rows joined by
    newlines, one row string per matrix row, in order; the row string of
    a matrix row is the concatenation, in order, of
    [ramp[min(floor(p / floor(255 / len(ramp))), len(ramp) - 1)]] for its
    pixels [p]. *)
Theorem pixels_rendered_by_ramp (lib : Imaging) (file_path : string)
    (columns : Z) (scale : float) (chars : string) (px : list (list Z)) :
  imaging_contract lib ->
  1 <= len chars <= 255 ->
  pixel_values_of lib file_path columns scale = Ok px ->
  exists rows,
    image_to_ascii lib file_path columns scale chars = join newline rows /\
    Forall2 (fun row s => Spec.row_string chars row = Some s) px rows /\
    forall i j row s p,
      nth_error px i = Some row -> nth_error rows i = Some s ->
      nth_error row j = Some p ->
      exists c,
        String.get j s = Some c /\
        String.get (Z.to_nat (Z.min (p / (255 / len chars)) (len chars - 1)))
                   chars = Some c.
Proof.
  intros Hc Hn Hpx.
  pose proof (pixel_values_uint8 lib file_path columns scale px Hc Hpx) as Hu.
  destruct (try_from_matrix lib file_path columns scale chars px Hpx Hu)
    as (rows & Htry & Hf); [lia |].
  assert (Hspec : Forall2 (fun row s => Spec.row_string chars row = Some s)
                          px rows).
  { clear Htry Hpx. revert Hu.
    induction Hf as [| row s px' rows' Hrow Hrest IH]; intros Hu.
    - constructor.
    - inversion Hu as [| ? ? Hu1 Hu2]; subst.
      constructor; [| apply IH; assumption].
      apply row_rendered_is_spec; assumption. }
  exists rows.
  split; [apply image_to_ascii_of_try; exact Htry |].
  split; [exact Hspec |].
  intros i j row s p Hi Hs Hj.
  assert (Hrs : Spec.row_string chars row = Some s).
  { clear - Hspec Hi Hs. revert i Hi Hs.
    induction Hspec as [| r t px' rows' Hrt Hrest IH]; intros i Hi Hs.
    - destruct i; discriminate.
    - destruct i as [| i]; simpl in Hi, Hs.
      + injection Hi as <-. injection Hs as <-. exact Hrt.
      + exact (IH i Hi Hs). }
  destruct (row_string_get chars row s Hrs j p Hj) as (c & Hg & Hr).
  exists c. split; [exact Hg |].
  unfold Spec.ramp_at, Spec.index, Spec.pixel_range in Hr.
  destruct (Z.min (p / (255 / len chars)) (len chars - 1) <? 0);
    [discriminate | exact Hr].
Qed.

Lemma pixels_rendered_by_ramp_witness :
  exists rows,
    image_to_ascii (Solid.lib Solid.demo) "gray.png" 7 0.5%float default_chars
      = join newline rows /\
    Forall2 (fun row s => Spec.row_string default_chars row = Some s)
            (repeat (repeat 100 7%nat) 2%nat) rows /\
    forall i j row s p,
      nth_error (repeat (repeat 100 7%nat) 2%nat) i = Some row ->
      nth_error rows i = Some s ->
      nth_error row j = Some p ->
      exists c,
        String.get j s = Some c /\
        String.get (Z.to_nat (Z.min (p / (255 / len default_chars))
                                    (len default_chars - 1)))
                   default_chars = Some c.
Proof.
  apply (pixels_rendered_by_ramp (Solid.lib Solid.demo) "gray.png" 7 0.5%float
           default_chars (repeat (repeat 100 7%nat) 2%nat)).
  - apply solid_contract.
  - vm_compute. split; discriminate.
  - vm_compute. reflexivity.
Defined.

(* ================================================================== *)
(** ** The shape of the output *)

Lemma split_lines_from_row (row : string) :
  no_newline row ->
  forall cur, split_lines_from cur row = [(cur ++ row)%string].
Proof.
  unfold no_newline.
  induction row as [| c row IH]; intros Hno cur;
    cbn [append split_lines_from].
  - now rewrite append_empty_r.
  - simpl in Hno.
    destruct (Ascii.eqb_spec c "010") as [Heq | Hc].
    + exfalso. apply Hno. left. exact Heq.
    + rewrite IH by (intros Hin; apply Hno; now right).
      rewrite append_assoc. reflexivity.
Qed.

Lemma split_lines_from_app (row t : string) :
  no_newline row ->
  forall cur,
    split_lines_from cur (row ++ newline ++ t)%string
    = (cur ++ row)%string :: split_lines_from EmptyString t.
Proof.
  unfold no_newline.
  induction row as [| c row IH]; intros Hno cur;
    cbn [append split_lines_from].
  - now rewrite append_empty_r.
  - simpl in Hno.
    destruct (Ascii.eqb_spec c "010") as [Heq | Hc].
    + exfalso. apply Hno. left. exact Heq.
    + rewrite IH by (intros Hin; apply Hno; now right).
      rewrite append_assoc. reflexivity.
Qed.

Lemma split_lines_join (rows : list string) :
  rows <> [] ->
  Forall no_newline rows ->
  split_lines (join newline rows) = rows.
Proof.
  unfold split_lines, join.
  induction rows as [| row rows IH]; intros Hne Hall; [congruence |].
  inversion Hall as [| ? ? Hrow Hrest]; subst.
  destruct rows as [| row' rows].
  - simpl. now rewrite split_lines_from_row.
  - change (String.concat newline (row :: row' :: rows))
      with (row ++ newline ++ String.concat newline (row' :: rows))%string.
    rewrite split_lines_from_app by assumption.
    simpl (EmptyString ++ row)%string.
    f_equal. apply IH; [discriminate | assumption].
Qed.

Lemma rendered_chars_in_ramp (chars : string) (r : Z) (row : list Z)
    (l : list ascii) :
  Forall2 (rendered chars r) row l ->
  forall c, In c l -> In c (list_ascii_of_string chars).
Proof.
  intros H. induction H as [| p d row' l' Hd Hrest IH]; intros c Hin.
  - contradiction.
  - destruct Hin as [Heq | Hin]; [| exact (IH c Hin)].
    subst d. unfold rendered in Hd. eapply get_In. exact Hd.
Qed.

Lemma row_rendered_no_newline (chars : string) (r : Z) (row : list Z)
    (s : string) :
  no_newline chars -> row_rendered chars r row s -> no_newline s.
Proof.
  unfold no_newline, row_rendered. intros Hno H Hin.
  apply Hno. eapply rendered_chars_in_ramp; eassumption.
Qed.

(** What a successful [try] block went through. *)
Lemma try_ok_inv (lib : Imaging) (file_path : string) (columns : Z)
    (scale : float) (chars art : string) :
  imaging_contract lib ->
  image_to_ascii_try lib file_path columns scale chars = Ok art ->
  exists px r rows,
    pixel_values_of lib file_path columns scale = Ok px /\
    art = join newline rows /\
    Forall2 (row_rendered chars r) px rows /\
    Forall (fun row => len row = columns) rows.
Proof.
  intros Hc Htry.
  unfold image_to_ascii_try in Htry.
  apply bind_ok in Htry. destruct Htry as (px & Hpx & Htry).
  apply bind_ok in Htry. destruct Htry as (r & Hr & Htry).
  apply bind_ok in Htry. destruct Htry as (rows & Hrows & Hart).
  injection Hart as <-.
  destruct (pixel_values_shape lib file_path columns scale px Hc Hpx)
    as (im & n & _ & _ & _ & Hall).
  apply pixel_range_of_nonneg in Hr. destruct Hr as (Hne & Hr0 & _).
  pose proof (pixel_values_uint8 lib file_path columns scale px Hc Hpx) as Hu.
  destruct (render_rows_ok chars r px Hne Hr0 Hu) as (rows' & Hrows' & Hf).
  rewrite Hrows in Hrows'. injection Hrows' as <-.
  exists px, r, rows.
  split; [exact Hpx |].
  split; [reflexivity |].
  split; [exact Hf |].
  clear - Hf Hall. induction Hf as [| row s px' rows' Hrow Hrest IH].
  - constructor.
  - inversion Hall as [| ? ? [Hw _] Hall']; subst.
    constructor; [| exact (IH Hall')].
    unfold len. rewrite (row_rendered_length _ _ _ _ Hrow). reflexivity.
Qed.

Lemma magnitude_pos (m : positive) (e : Z) : (0 < Spec.magnitude m e)%Q.
Proof.
  unfold Spec.magnitude.
  apply Qmult_lt_0_compat.
  - unfold Qlt. simpl. lia.
  - apply Qpower_0_lt. reflexivity.
Qed.

Lemma magnitude_floor (m : positive) (e : Z) :
  Qfloor (Spec.magnitude m e)
  = if 0 <=? e then Z.pos m * 2 ^ e else Z.pos m / 2 ^ (- e).
Proof.
  unfold Spec.magnitude.
  destruct (Z.leb_spec 0 e) as [He | He].
  - rewrite <- (Qfloor_Z (Z.pos m * 2 ^ e)). apply Qfloor_comp.
    rewrite inject_Z_mult. rewrite (Zpower_Qpower 2 e He). reflexivity.
  - rewrite Zdiv_Qdiv. apply Qfloor_comp.
    unfold Qdiv. rewrite (Zpower_Qpower 2 (- e)) by lia.
    rewrite <- Qpower_opp. rewrite Z.opp_involutive. reflexivity.
Qed.

(** [int] of a float is the integer part of the number it stands for. *)
Lemma int_of_float_value (x : float) (n : Z) :
  int_of_float x = Ok n ->
  option_map Spec.int_part (Spec.float_value x) = Some n.
Proof.
  unfold int_of_float, Spec.float_value.
  destruct (Prim2SF x) as [z | i | | s m e]; try discriminate.
  - intros H. injection H as <-. reflexivity.
  - cbv zeta. rewrite <- magnitude_floor. intros H. injection H as <-.
    pose proof (magnitude_pos m e) as Hpos.
    simpl option_map. f_equal. unfold Spec.int_part.
    destruct s.
    + destruct (Qle_bool 0 (- Spec.magnitude m e)) eqn:Hle.
      * apply Qle_bool_iff in Hle. exfalso.
        apply (Qlt_irrefl 0%Q).
        apply Qlt_le_trans with (Spec.magnitude m e); [exact Hpos |].
        apply Qopp_le_compat in Hle. rewrite Qopp_involutive in Hle.
        exact Hle.
      * unfold Qceiling.
        rewrite (Qfloor_comp _ _ (Qopp_involutive _)). reflexivity.
    + destruct (Qle_bool 0 (Spec.magnitude m e)) eqn:Hle; [reflexivity |].
      exfalso. apply Qlt_le_weak in Hpos. apply Qle_bool_iff in Hpos.
      congruence.
Qed.

(** The height the code computes is the height of the specification. *)
Lemma new_height_of_is_spec (scale : float) (width height new_width n : Z) :
  new_height_of scale width height new_width = Ok n ->
  Spec.new_height scale width height new_width = Some n.
Proof.
  unfold new_height_of, truediv, float_mul_int, Spec.new_height.
  destruct (width =? 0); [discriminate |]. simpl.
  destruct (is_infinity (float_of_int new_width)); [discriminate |]. simpl.
  apply int_of_float_value.
Qed.

(** C2, as stated, fails: with the ramp ["E\n"], 2 columns and scale 1.0
    the render of a white 10x10 image succeeds and
    [int(scale * (H / W) * columns)] is 2, yet every pixel is drawn as a
    newline and the string returned splits at its newlines into 6 rows
    of length 0, not into 2 rows of length 2. *)
Lemma newline_ramp_breaks_rows :
  image_to_ascii_try (Solid.lib Solid.demo) "white.png" 2 1%float
                     (String "E" newline)
  = Ok (image_to_ascii (Solid.lib Solid.demo) "white.png" 2 1%float
                       (String "E" newline)) /\
  Spec.new_height 1%float 10 10 2 = Some 2 /\
  split_lines (image_to_ascii (Solid.lib Solid.demo) "white.png" 2 1%float
                              (String "E" newline))
  = repeat EmptyString 6.
Proof.
  vm_compute. repeat split.
Qed.

(** C2, amended.  When the image at [file_path] has size [(W, H)] with
    [W > 0] and the [try] block ends without an exception, the value
    returned is [int(scale * (H / W) * columns)] row strings joined by
    newlines, and every row string has [columns] characters.  When
    moreover the ramp holds no newline, these are exactly the
    newline-separated rows of the value returned (which is the empty
    string when there is no row). *)
Theorem output_shape (lib : Imaging) (file_path : string) (columns : Z)
    (scale : float) (chars : string) (im : image lib) (W H : Z)
    (art : string) :
  imaging_contract lib ->
  Image_open lib file_path = Ok im ->
  image_size lib im = (W, H) ->
  0 < W ->
  image_to_ascii_try lib file_path columns scale chars = Ok art ->
  exists new_height rows,
    Spec.new_height scale W H columns = Some new_height /\
    new_height_of scale W H columns = Ok new_height /\
    image_to_ascii lib file_path columns scale chars = join newline rows /\
    Z.of_nat (List.length rows) = new_height /\
    Forall (fun row => len row = columns) rows /\
    (no_newline chars ->
     if new_height =? 0
     then image_to_ascii lib file_path columns scale chars = EmptyString
     else split_lines (image_to_ascii lib file_path columns scale chars)
          = rows).
Proof.
  intros Hc Hopen Hsize _ Htry.
  destruct (try_ok_inv lib file_path columns scale chars art Hc Htry)
    as (px & r & rows & Hpx & -> & Hf & Hcols).
  destruct (pixel_values_shape lib file_path columns scale px Hc Hpx)
    as (im' & n & Hopen' & Hn & Hlen & _).
  rewrite Hopen in Hopen'. injection Hopen' as <-.
  rewrite Hsize in Hn. simpl in Hn.
  pose proof (image_to_ascii_of_try lib file_path columns scale chars _ Htry)
    as Hres.
  exists n, rows.
  split; [apply new_height_of_is_spec; exact Hn |].
  split; [exact Hn |].
  split; [exact Hres |].
  split; [rewrite <- (Forall2_length Hf); exact Hlen |].
  split; [exact Hcols |].
  intros Hno. rewrite Hres.
  apply Forall2_length in Hf as Hlen2.
  destruct (Z.eqb_spec n 0) as [H0 | H0].
  - destruct rows as [| row rows]; [reflexivity |]. simpl in Hlen2. lia.
  - apply split_lines_join.
    + intros ->. simpl in Hlen2. lia.
    + clear - Hf Hno. induction Hf as [| row s px' rows' Hrow Hrest IH].
      * constructor.
      * constructor; [| exact IH].
        eapply row_rendered_no_newline; eassumption.
Qed.

Lemma output_shape_witness :
  exists new_height rows,
    Spec.new_height 0.5%float 4 3 7 = Some new_height /\
    new_height_of 0.5%float 4 3 7 = Ok new_height /\
    image_to_ascii (Solid.lib Solid.demo) "gray.png" 7 0.5%float default_chars
      = join newline rows /\
    Z.of_nat (List.length rows) = new_height /\
    Forall (fun row => len row = 7) rows /\
    (no_newline default_chars ->
     if new_height =? 0
     then image_to_ascii (Solid.lib Solid.demo) "gray.png" 7 0.5%float
                         default_chars = EmptyString
     else split_lines (image_to_ascii (Solid.lib Solid.demo) "gray.png" 7
                                      0.5%float default_chars) = rows).
Proof.
  apply (output_shape (Solid.lib Solid.demo) "gray.png" 7 0.5%float
           default_chars (Solid.Img 4 3 100 "RGB") 4 3
           (image_to_ascii (Solid.lib Solid.demo) "gray.png" 7 0.5%float
                           default_chars)).
  - apply solid_contract.
  - reflexivity.
  - reflexivity.
  - lia.
  - vm_compute. reflexivity.
Defined.

(* ================================================================== *)
(** ** A ramp of one character *)

Lemma get_single (c d : ascii) (n : nat) :
  String.get n (String c EmptyString) = Some d -> d = c.
Proof.
  destruct n as [| n]; simpl; intros H.
  - now injection H.
  - discriminate.
Qed.

Lemma row_rendered_single (c : ascii) (r : Z) (row : list Z) :
  forall s,
    row_rendered (String c EmptyString) r row s ->
    s = string_of_list_ascii (repeat c (List.length row)).
Proof.
  unfold row_rendered.
  induction row as [| p row IH]; intros s H.
  - destruct s; simpl in H; inversion H. reflexivity.
  - destruct s as [| d s]; simpl in H; inversion H as [| ? ? ? ? Hd Hrest]; subst.
    simpl. rewrite <- (IH s Hrest).
    unfold rendered in Hd. apply get_single in Hd. now subst d.
Qed.

Lemma Forall2_eq_map {A B : Type} (f : A -> B) (l : list A) (l' : list B) :
  Forall2 (fun a b => b = f a) l l' -> l' = map f l.
Proof.
  intros H. induction H as [| a b l l' Hab Hrest IH]; simpl.
  - reflexivity.
  - now rewrite Hab, IH.
Qed.

(** C10.  With a ramp of exactly one character, every pixel value in
    [0, 255], 255 included, gets index 0, and the value returned is, row
    by row, that character repeated, the rows joined by newlines. *)
Theorem single_char_ramp (lib : Imaging) (file_path : string) (columns : Z)
    (scale : float) (c : ascii) (px : list (list Z)) :
  imaging_contract lib ->
  pixel_values_of lib file_path columns scale = Ok px ->
  pixel_range_of (String c EmptyString) = Ok 255 /\
  (forall p, uint8 p -> pixel_index (String c EmptyString) 255 p = 0) /\
  image_to_ascii lib file_path columns scale (String c EmptyString)
    = join newline
        (map (fun row => string_of_list_ascii (repeat c (List.length row))) px).
Proof.
  intros Hc Hpx.
  split; [reflexivity |].
  split.
  - intros p [Hp0 Hp1]. unfold pixel_index, Np.floor_divide. simpl (255 =? 0).
    cbv iota. change (len (String c EmptyString) - 1) with 0.
    pose proof (Z.div_pos p 255 Hp0 ltac:(lia)). lia.
  - pose proof (pixel_values_uint8 lib file_path columns scale px Hc Hpx) as Hu.
    destruct (try_from_matrix lib file_path columns scale
                (String c EmptyString) px Hpx Hu) as (rows & Htry & Hf).
    { unfold len. simpl. lia. }
    rewrite (image_to_ascii_of_try _ _ _ _ _ _ Htry). f_equal.
    apply Forall2_eq_map.
    eapply Forall2_impl; [| exact Hf].
    intros row s Hrow. eapply row_rendered_single. exact Hrow.
Qed.

Lemma single_char_ramp_witness :
  pixel_range_of "#" = Ok 255 /\
  (forall p, uint8 p -> pixel_index "#" 255 p = 0) /\
  image_to_ascii (Solid.lib Solid.demo) "white.png" 3 1%float "#"
    = join newline
        (map (fun row => string_of_list_ascii (repeat "#"%char (List.length row)))
             (repeat (repeat 255 3%nat) 3%nat)).
Proof.
  apply (single_char_ramp (Solid.lib Solid.demo) "white.png" 3 1%float "#"%char
           (repeat (repeat 255 3%nat) 3%nat)).
  - apply solid_contract.
  - vm_compute. reflexivity.
Defined.

(* ================================================================== *)
(** ** A white square *)

Lemma all_equal_repeat {A : Type} (x : A) (l : list A) :
  Forall (eq x) l -> l = repeat x (List.length l).
Proof.
  intros H. induction H as [| y l Hy Hrest IH]; simpl.
  - reflexivity.
  - now rewrite <- Hy, <- IH.
Qed.

Lemma white_matrix (px : list (list Z)) (w h : nat) :
  List.length px = h ->
  Forall (fun row => List.length row = w) px ->
  Forall (Forall (eq 255)) px ->
  px = repeat (repeat 255 w) h.
Proof.
  intros Hh Hw Hall. subst h.
  induction px as [| row px IH]; simpl; [reflexivity |].
  inversion Hw as [| ? ? Hrow Hw']; subst.
  inversion Hall as [| ? ? Hwhite Hall']; subst.
  rewrite <- (IH Hw' Hall'). f_equal.
  apply all_equal_repeat. exact Hwhite.
Qed.

(** C8.  For a 10x10 image that the library draws white, rendering with
    [columns = 10], [scale = 0.5] and the default ramp returns 5 rows of
    10 characters ['@'], joined by newlines. *)
Theorem white_square (lib : Imaging) (file_path : string) (im : image lib) :
  imaging_contract lib ->
  Image_open lib file_path = Ok im ->
  image_size lib im = (10, 10) ->
  renders_white lib im (10, 5) ->
  new_height_of 0.5%float 10 10 10 = Ok 5 /\
  image_to_ascii lib file_path 10 0.5%float " .,:;ox%#@"
    = join newline (repeat "@@@@@@@@@@" 5) /\
  split_lines (image_to_ascii lib file_path 10 0.5%float " .,:;ox%#@")
    = repeat "@@@@@@@@@@" 5.
Proof.
  intros Hc Hopen Hsize (resized & grayscale & px & Hres & Hconv & Harr & Hw).
  assert (Hh : new_height_of 0.5%float 10 10 10 = Ok 5) by (vm_compute; reflexivity).
  assert (Hpx : pixel_values_of lib file_path 10 0.5%float = Ok px).
  { unfold pixel_values_of. rewrite Hopen. simpl. rewrite Hsize.
    rewrite Hh. simpl. rewrite Hres. simpl. rewrite Hconv. simpl. exact Harr. }
  destruct (pixel_values_shape lib file_path 10 0.5%float px Hc Hpx)
    as (im' & n & Hopen' & Hn & Hlen & Hall).
  rewrite Hopen in Hopen'. injection Hopen' as <-.
  rewrite Hsize in Hn. simpl in Hn. rewrite Hh in Hn. injection Hn as <-.
  assert (Hmat : px = repeat (repeat 255 10%nat) 5%nat).
  { apply white_matrix; [lia | | exact Hw].
    eapply Forall_impl; [| exact Hall]. intros row [Hrow _]. lia. }
  assert (Hart : image_to_ascii lib file_path 10 0.5%float " .,:;ox%#@"
                 = join newline (repeat "@@@@@@@@@@" 5)).
  { apply image_to_ascii_of_try.
    unfold image_to_ascii_try. rewrite Hpx, Hmat. vm_compute. reflexivity. }
  split; [exact Hh |].
  split; [exact Hart |].
  rewrite Hart. vm_compute. reflexivity.
Qed.

Lemma white_square_witness :
  new_height_of 0.5%float 10 10 10 = Ok 5 /\
  image_to_ascii (Solid.lib Solid.demo) "white.png" 10 0.5%float " .,:;ox%#@"
    = join newline (repeat "@@@@@@@@@@" 5) /\
  split_lines (image_to_ascii (Solid.lib Solid.demo) "white.png" 10 0.5%float
                              " .,:;ox%#@")
    = repeat "@@@@@@@@@@" 5.
Proof.
  apply (white_square (Solid.lib Solid.demo) "white.png"
           (Solid.Img 10 10 255 "RGB")).
  - apply solid_contract.
  - reflexivity.
  - reflexivity.
  - exists (Solid.Img 10 5 255 "RGB"), (Solid.Img 10 5 255 "L"),
      (repeat (repeat 255 10%nat) 5%nat).
    split; [reflexivity |].
    split; [reflexivity |].
    split; [reflexivity |].
    repeat constructor.
Defined.

(* ================================================================== *)
(** ** The error paths *)

Lemma image_to_ascii_of_raise (lib : Imaging) (file_path : string)
    (columns : Z) (scale : float) (chars : string) (e : exn) :
  image_to_ascii_try lib file_path columns scale chars = Raise e ->
  image_to_ascii lib file_path columns scale chars
  = if is_FileNotFoundError e
    then "Error: The file was not found. Check the file path."
    else ("An error occurred: " ++ exn_str e)%string.
Proof.
  intros H. unfold image_to_ascii. rewrite H. reflexivity.
Qed.

Lemma try_raises_of_open (lib : Imaging) (file_path : string) (columns : Z)
    (scale : float) (chars : string) (e : exn) :
  Image_open lib file_path = Raise e ->
  image_to_ascii_try lib file_path columns scale chars = Raise e.
Proof.
  intros H. unfold image_to_ascii_try, pixel_values_of. rewrite H. reflexivity.
Qed.

(** C7.  The function returns a string for every input.  If the steps up
    to the pixel matrix raise [e], the value is the file-not-found
    message when [e] is a [FileNotFoundError] and
    ["An error occurred: " ++ str(e)] otherwise.  If they yield a matrix,
    an empty ramp gives ["An error occurred: "] followed by the message of
    the division by zero, and any other ramp gives one row string per
    matrix row, joined by newlines: the loops raise nothing.  In every
    case an exception [e] of the [try] block that is not a
    [FileNotFoundError] is returned as ["An error occurred: " ++ str(e)]. *)
Theorem render_never_raises (lib : Imaging) (file_path : string)
    (columns : Z) (scale : float) (chars : string) :
  imaging_contract lib ->
  match pixel_values_of lib file_path columns scale with
  | Raise e =>
      image_to_ascii_try lib file_path columns scale chars = Raise e
  | Ok px =>
      if len chars =? 0
      then image_to_ascii_try lib file_path columns scale chars
           = Raise (Exn ZeroDivisionError "integer division or modulo by zero")
      else exists rows,
             List.length rows = List.length px /\
             image_to_ascii_try lib file_path columns scale chars
             = Ok (join newline rows)
  end /\
  match image_to_ascii_try lib file_path columns scale chars with
  | Ok art => image_to_ascii lib file_path columns scale chars = art
  | Raise e =>
      image_to_ascii lib file_path columns scale chars
      = if is_FileNotFoundError e
        then "Error: The file was not found. Check the file path."
        else ("An error occurred: " ++ exn_str e)%string
  end.
Proof.
  intros Hc. split.
  - destruct (pixel_values_of lib file_path columns scale) as [px | e] eqn:Hpx.
    + destruct (Z.eqb_spec (len chars) 0) as [H0 | H0].
      * unfold image_to_ascii_try, pixel_range_of, floordiv.
        rewrite Hpx, H0. reflexivity.
      * pose proof (len_nonneg chars).
        pose proof (pixel_values_uint8 lib file_path columns scale px Hc Hpx)
          as Hu.
        destruct (try_from_matrix lib file_path columns scale chars px Hpx Hu)
          as (rows & Htry & Hf); [lia |].
        exists rows. split; [| exact Htry].
        symmetry. exact (Forall2_length Hf).
    + unfold image_to_ascii_try. rewrite Hpx. reflexivity.
  - destruct (image_to_ascii_try lib file_path columns scale chars)
      as [art | e] eqn:Htry.
    + apply image_to_ascii_of_try. exact Htry.
    + apply image_to_ascii_of_raise. exact Htry.
Qed.

Lemma render_never_raises_witness :
  match pixel_values_of (Solid.lib Solid.demo) "gray.png" (-3) (-0.5)%float with
  | Raise e =>
      image_to_ascii_try (Solid.lib Solid.demo) "gray.png" (-3) (-0.5)%float EmptyString
      = Raise e
  | Ok px =>
      if len EmptyString =? 0
      then image_to_ascii_try (Solid.lib Solid.demo) "gray.png" (-3)
                              (-0.5)%float EmptyString
           = Raise (Exn ZeroDivisionError "integer division or modulo by zero")
      else exists rows,
             List.length rows = List.length px /\
             image_to_ascii_try (Solid.lib Solid.demo) "gray.png" (-3)
                                (-0.5)%float EmptyString
             = Ok (join newline rows)
  end /\
  match image_to_ascii_try (Solid.lib Solid.demo) "gray.png" (-3)
                           (-0.5)%float EmptyString with
  | Ok art =>
      image_to_ascii (Solid.lib Solid.demo) "gray.png" (-3) (-0.5)%float EmptyString
      = art
  | Raise e =>
      image_to_ascii (Solid.lib Solid.demo) "gray.png" (-3) (-0.5)%float EmptyString
      = if is_FileNotFoundError e
        then "Error: The file was not found. Check the file path."
        else ("An error occurred: " ++ exn_str e)%string
  end.
Proof.
  apply (render_never_raises (Solid.lib Solid.demo) "gray.png" (-3)
           (-0.5)%float EmptyString).
  apply solid_contract.
Defined.

(** The function on a few inputs that go wrong. *)
Example render_corrupt_file :
  image_to_ascii (Solid.lib Solid.demo) "img.png" 80 0.5%float default_chars
  = "An error occurred: cannot identify image file 'img.png'".
Proof. vm_compute. reflexivity. Qed.

Example render_zero_columns :
  image_to_ascii (Solid.lib Solid.demo) "gray.png" 0 0.5%float default_chars
  = "An error occurred: height and width must be > 0".
Proof. vm_compute. reflexivity. Qed.

Example render_negative_scale :
  image_to_ascii (Solid.lib Solid.demo) "gray.png" 7 (-0.5)%float default_chars
  = "An error occurred: height and width must be > 0".
Proof. vm_compute. reflexivity. Qed.

Example render_nan_scale :
  image_to_ascii (Solid.lib Solid.demo) "gray.png" 7 nan default_chars
  = "An error occurred: cannot convert float NaN to integer".
Proof. vm_compute. reflexivity. Qed.

Example render_empty_ramp :
  image_to_ascii (Solid.lib Solid.demo) "gray.png" 7 0.5%float EmptyString
  = "An error occurred: integer division or modulo by zero".
Proof. vm_compute. reflexivity. Qed.

Example render_long_ramp :
  image_to_ascii (Solid.lib Solid.demo) "white.png" 3 1%float Solid.long_ramp
  = join newline ["###"; "###"; "###"].
Proof. vm_compute. reflexivity. Qed.

(* ================================================================== *)
(** ** The script *)

Lemma script_on_error_prefix (lib : Imaging) (image_path output_path : string)
    (w : world) :
  startswith (image_to_ascii lib image_path default_columns default_scale
                             default_chars) "Error:" = true ->
  script lib image_path output_path w
  = print (image_to_ascii lib image_path default_columns default_scale
                          default_chars) w.
Proof.
  intros H. unfold script. rewrite H. reflexivity.
Qed.

(** A failure that is not a [FileNotFoundError] is not recognised by the
    script: the message does not start with ["Error:"], and it is
    written to the output file. *)
Lemma script_on_other_failure (lib : Imaging) (image_path output_path : string)
    (w : world) (e : exn) :
  image_to_ascii_try lib image_path default_columns default_scale default_chars
    = Raise e ->
  is_FileNotFoundError e = false ->
  script lib image_path output_path w
  = write_file output_path ("An error occurred: " ++ exn_str e)%string w.
Proof.
  intros Htry Hcls. unfold script.
  rewrite (image_to_ascii_of_raise _ _ _ _ _ _ Htry), Hcls.
  reflexivity.
Qed.

Lemma default_chars_not_E (c : ascii) :
  In c (list_ascii_of_string default_chars) -> c <> "E"%char.
Proof.
  simpl. intros H.
  repeat (destruct H as [<- | H]; [discriminate |]).
  contradiction.
Qed.

(** A rendering made with the default ramp and 80 columns is written to
    the output file. *)
Lemma script_on_success (lib : Imaging) (image_path output_path : string)
    (w : world) (art : string) :
  imaging_contract lib ->
  image_to_ascii_try lib image_path default_columns default_scale default_chars
    = Ok art ->
  script lib image_path output_path w = write_file output_path art w.
Proof.
  intros Hc Htry. unfold script.
  rewrite (image_to_ascii_of_try _ _ _ _ _ _ Htry).
  destruct (try_ok_inv _ _ _ _ _ _ Hc Htry)
    as (px & r & rows & _ & -> & Hf & Hcols).
  assert (Hno : startswith (join newline rows) "Error:" = false);
    [| rewrite Hno; reflexivity].
  destruct Hf as [| row s px' rows' Hrow Hrest]; [reflexivity |].
  inversion Hcols as [| ? ? Hlen _]; subst.
  destruct s as [| c s]; [discriminate |].
  unfold row_rendered in Hrow. simpl in Hrow.
  assert (Hc0 : c <> "E"%char).
  { apply default_chars_not_E.
    eapply rendered_chars_in_ramp; [exact Hrow | now left]. }
  unfold startswith, join.
  destruct rows' as [| s' rows']; cbn [String.concat append prefix];
    destruct (ascii_dec "E" c) as [HE | HE]; congruence.
Qed.

(** The script on a directory where [img.png] is a 4x3 picture: nothing
    is printed and 30 rows of 80 characters are written. *)
Example main_writes_art :
  stdout (main (Solid.lib Solid.demo_ok) Solid.empty_world) = [] /\
  files (main (Solid.lib Solid.demo_ok) Solid.empty_world) "ascii_art.txt"
  = Some (join newline
            (repeat (string_of_list_ascii (repeat ";"%char 80)) 30)).
Proof. vm_compute. split; reflexivity. Qed.


(** C4, at an input where the code departs from it: [img.png] exists but
    is not an image.  The render fails with a processing error; the
    script prints nothing and writes the error message to
    [ascii_art.txt]. *)
Theorem main_writes_processing_error :
  image_to_ascii_try (Solid.lib Solid.demo) "img.png" default_columns
                     default_scale default_chars
  = Raise (Exn UnidentifiedImageError "cannot identify image file 'img.png'") /\
  stdout (main (Solid.lib Solid.demo) Solid.empty_world) = [] /\
  files (main (Solid.lib Solid.demo) Solid.empty_world) "ascii_art.txt"
  = Some "An error occurred: cannot identify image file 'img.png'".
Proof.
  vm_compute. repeat split.
Qed.

(** C5, as stated, fails: [secret.png] exists but may not be read.
    Opening it fails, yet the value returned does not hold "not found",
    and the script, run on that path, writes the output file. *)
Lemma unreadable_file_not_reported :
  (exists e,
     Image_open (Solid.lib Solid.demo) "secret.png" = Raise e /\
     is_open_failure e = true) /\
  contains "not found"
    (lower (image_to_ascii (Solid.lib Solid.demo) "secret.png" default_columns
                           default_scale default_chars)) = false /\
  files (script (Solid.lib Solid.demo) "secret.png" "ascii_art.txt"
                Solid.empty_world) "ascii_art.txt"
  = Some "An error occurred: [Errno 13] Permission denied: 'secret.png'".
Proof.
  split.
  - eexists. split; reflexivity.
  - vm_compute. split; reflexivity.
Qed.

(** C5, amended.  When opening the path raises [FileNotFoundError] (the
    file does not exist), the function returns the message
    ["Error: The file was not found. Check the file path."], which holds
    "not found" and starts with ["Error:"]; the script, run on that
    path, prints it and leaves every file as it was. *)
Theorem missing_file_reported (lib : Imaging) (file_path : string)
    (columns : Z) (scale : float) (chars : string) (e : exn) :
  Image_open lib file_path = Raise e ->
  is_FileNotFoundError e = true ->
  image_to_ascii lib file_path columns scale chars
    = "Error: The file was not found. Check the file path." /\
  contains "not found"
    (lower (image_to_ascii lib file_path columns scale chars)) = true /\
  forall output_path w,
    script lib file_path output_path w
    = World (stdout w ++ ["Error: The file was not found. Check the file path."])
            (files w).
Proof.
  intros Hopen Hcls.
  assert (Hmsg : forall columns scale chars,
             image_to_ascii lib file_path columns scale chars
             = "Error: The file was not found. Check the file path.").
  { intros c s ch.
    rewrite (image_to_ascii_of_raise lib file_path c s ch e
               (try_raises_of_open lib file_path c s ch e Hopen)).
    rewrite Hcls. reflexivity. }
  split; [apply Hmsg |].
  split; [rewrite Hmsg; vm_compute; reflexivity |].
  intros output_path w.
  rewrite script_on_error_prefix; rewrite Hmsg; reflexivity.
Qed.

Lemma missing_file_reported_witness :
  image_to_ascii (Solid.lib Solid.demo) "missing.png" 80 0.5%float default_chars
    = "Error: The file was not found. Check the file path." /\
  contains "not found"
    (lower (image_to_ascii (Solid.lib Solid.demo) "missing.png" 80 0.5%float
                           default_chars)) = true /\
  forall output_path w,
    script (Solid.lib Solid.demo) "missing.png" output_path w
    = World (stdout w ++ ["Error: The file was not found. Check the file path."])
            (files w).
Proof.
  apply (missing_file_reported (Solid.lib Solid.demo) "missing.png" 80
           0.5%float default_chars
           (Exn FileNotFoundError
                "[Errno 2] No such file or directory: 'missing.png'")).
  - reflexivity.
  - reflexivity.
Defined.

(* ================================================================== *)
(** ** More on the ramp index *)

(** X1.  For every ramp that is not empty, pixel value 0 gets index 0
    and is drawn with the first character of the ramp. *)
Theorem black_maps_to_first_char (chars : string) (pixel_range : Z) :
  pixel_range_of chars = Ok pixel_range ->
  pixel_index chars pixel_range 0 = 0 /\
  exists c,
    str_getitem chars (pixel_index chars pixel_range 0) = Ok c /\
    String.get 0 chars = Some c.
Proof.
  intros Hr. apply pixel_range_of_nonneg in Hr. destruct Hr as (Hn & Hr & _).
  assert (Hi : pixel_index chars pixel_range 0 = 0).
  { unfold pixel_index, Np.floor_divide.
    destruct (Z.eqb_spec pixel_range 0); [lia |].
    rewrite Z.div_0_l by assumption. lia. }
  split; [exact Hi |].
  rewrite Hi.
  destruct (str_getitem_in_range chars 0) as (c & Hc & Hg); [lia |].
  exists c. split; assumption.
Qed.

Lemma black_maps_to_first_char_witness :
  pixel_index default_chars 25 0 = 0 /\
  exists c,
    str_getitem default_chars (pixel_index default_chars 25 0) = Ok c /\
    String.get 0 default_chars = Some c.
Proof.
  apply (black_maps_to_first_char default_chars 25).
  reflexivity.
Defined.

Lemma div_eq_iff (p r i : Z) :
  0 < r -> (p / r = i <-> i * r <= p < (i + 1) * r).
Proof.
  intros Hr. pose proof (Z.div_mod p r ltac:(lia)) as Hdm.
  pose proof (Z.mod_pos_bound p r Hr) as Hm.
  split.
  - intros <-. nia.
  - intros [Hlo Hhi]. nia.
Qed.

(** X2.  For a ramp of [n] characters, 1 <= n <= 255, with
    [r = 255 // n]: a pixel value gets an index [i] below [n - 1]
    exactly when it lies in [i * r, (i + 1) * r - 1]; it gets the last
    index exactly when it is at least [(n - 1) * r]; and the last
    character covers at least [r + 1] of the 256 values, one more than
    any other. *)
Theorem index_buckets (chars : string) (p i : Z) :
  1 <= len chars <= 255 ->
  uint8 p ->
  0 <= i <= len chars - 1 ->
  (i < len chars - 1 ->
   (pixel_index chars (255 / len chars) p = i <->
    i * (255 / len chars) <= p < (i + 1) * (255 / len chars))) /\
  (pixel_index chars (255 / len chars) p = len chars - 1 <->
   (len chars - 1) * (255 / len chars) <= p) /\
  (len chars - 1) * (255 / len chars) + (255 / len chars) <= 255.
Proof.
  intros Hn [Hp0 Hp1] Hi.
  pose proof (pixel_range_pos (len chars) Hn) as Hr.
  pose proof (Z.mul_div_le 255 (len chars) ltac:(lia)) as Hle.
  set (r := 255 / len chars) in *.
  assert (Hidx : pixel_index chars r p = Z.min (p / r) (len chars - 1)).
  { unfold pixel_index, Np.floor_divide.
    destruct (Z.eqb_spec r 0); [lia | reflexivity]. }
  assert (Hq : 0 <= p / r) by (apply Z.div_pos; lia).
  split; [| split].
  - intros Hlt. rewrite Hidx.
    rewrite <- (div_eq_iff p r i) by lia. lia.
  - rewrite Hidx. split.
    + intros Hm.
      assert (Hge : len chars - 1 <= p / r) by lia.
      pose proof (Z.mul_div_le p r ltac:(lia)). nia.
    + intros Hge.
      assert (len chars - 1 <= p / r)
        by (apply Z.div_le_lower_bound; lia).
      lia.
  - nia.
Qed.

Lemma index_buckets_witness :
  (4 < len default_chars - 1 ->
   (pixel_index default_chars (255 / len default_chars) 100 = 4 <->
    4 * (255 / len default_chars) <= 100 < (4 + 1) * (255 / len default_chars))) /\
  (pixel_index default_chars (255 / len default_chars) 100
   = len default_chars - 1 <->
   (len default_chars - 1) * (255 / len default_chars) <= 100) /\
  (len default_chars - 1) * (255 / len default_chars)
    + (255 / len default_chars) <= 255.
Proof.
  apply (index_buckets default_chars 100 4).
  - vm_compute. split; discriminate.
  - unfold uint8. lia.
  - vm_compute. split; discriminate.
Defined.

(** X3.  For a ramp of 1 to 255 characters, every position of the ramp is
    the index of some pixel value in [0, 255]: no character of such a
    ramp is out of reach. *)
Theorem every_char_reachable (chars : string) (i : Z) :
  1 <= len chars <= 255 ->
  0 <= i <= len chars - 1 ->
  exists p,
    uint8 p /\
    p = i * (255 / len chars) /\
    pixel_index chars (255 / len chars) p = i.
Proof.
  intros Hn Hi.
  pose proof (pixel_range_pos (len chars) Hn) as Hr.
  pose proof (Z.mul_div_le 255 (len chars) ltac:(lia)) as Hle.
  exists (i * (255 / len chars)).
  split; [unfold uint8; nia |].
  split; [reflexivity |].
  unfold pixel_index, Np.floor_divide.
  destruct (Z.eqb_spec (255 / len chars) 0); [lia |].
  rewrite Z.div_mul by assumption. lia.
Qed.

Lemma every_char_reachable_witness :
  exists p,
    uint8 p /\
    p = 9 * (255 / len default_chars) /\
    pixel_index default_chars (255 / len default_chars) p = 9.
Proof.
  apply (every_char_reachable default_chars 9).
  - vm_compute. split; discriminate.
  - vm_compute. split; discriminate.
Defined.

(* ================================================================== *)
(** ** More on the output *)

Lemma row_rendered_constant (chars : string) (r : Z) (c0 : ascii)
    (row : list Z) :
  (forall p, pixel_index chars r p = 0) ->
  String.get 0 chars = Some c0 ->
  forall s,
    row_rendered chars r row s ->
    s = string_of_list_ascii (repeat c0 (List.length row)).
Proof.
  unfold row_rendered. intros Hidx Hget.
  induction row as [| p row IH]; intros s H.
  - destruct s; simpl in H; inversion H. reflexivity.
  - destruct s as [| d s]; simpl in H;
      inversion H as [| ? ? ? ? Hd Hrest]; subst.
    simpl. rewrite <- (IH s Hrest).
    unfold rendered in Hd. rewrite Hidx in Hd. simpl in Hd.
    congruence.
Qed.

(** X4.  With a ramp of more than 255 characters [pixel_range] is 0,
    every pixel value gets index 0, and the value returned is, row by
    row, the first character of the ramp repeated: the rest of the ramp
    is never used. *)
Theorem long_ramp_uses_first_char (lib : Imaging) (file_path : string)
    (columns : Z) (scale : float) (chars : string) (c0 : ascii)
    (px : list (list Z)) :
  imaging_contract lib ->
  256 <= len chars ->
  String.get 0 chars = Some c0 ->
  pixel_values_of lib file_path columns scale = Ok px ->
  pixel_range_of chars = Ok 0 /\
  (forall p, pixel_index chars 0 p = 0) /\
  image_to_ascii lib file_path columns scale chars
    = join newline
        (map (fun row => string_of_list_ascii (repeat c0 (List.length row)))
             px).
Proof.
  intros Hc Hn Hget Hpx.
  assert (Hr : 255 / len chars = 0) by (apply Z.div_small; lia).
  assert (Hidx : forall p, pixel_index chars 0 p = 0).
  { intros p. unfold pixel_index, Np.floor_divide. simpl. lia. }
  split; [rewrite pixel_range_of_ok by lia; now rewrite Hr |].
  split; [exact Hidx |].
  pose proof (pixel_values_uint8 lib file_path columns scale px Hc Hpx) as Hu.
  destruct (try_from_matrix lib file_path columns scale chars px Hpx Hu)
    as (rows & Htry & Hf); [lia |].
  rewrite Hr in Hf.
  rewrite (image_to_ascii_of_try _ _ _ _ _ _ Htry). f_equal.
  apply Forall2_eq_map.
  eapply Forall2_impl; [| exact Hf].
  intros row s Hrow.
  eapply row_rendered_constant; eassumption.
Qed.

Lemma long_ramp_uses_first_char_witness :
  pixel_range_of Solid.long_ramp = Ok 0 /\
  (forall p, pixel_index Solid.long_ramp 0 p = 0) /\
  image_to_ascii (Solid.lib Solid.demo) "white.png" 3 1%float Solid.long_ramp
    = join newline
        (map (fun row => string_of_list_ascii (repeat "#"%char (List.length row)))
             (repeat (repeat 255 3%nat) 3%nat)).
Proof.
  apply (long_ramp_uses_first_char (Solid.lib Solid.demo) "white.png" 3
           1%float Solid.long_ramp "#"%char (repeat (repeat 255 3%nat) 3%nat)).
  - apply solid_contract.
  - vm_compute. discriminate.
  - reflexivity.
  - vm_compute. reflexivity.
Defined.

Lemma list_ascii_append (a b : string) :
  list_ascii_of_string (a ++ b)
  = (list_ascii_of_string a ++ list_ascii_of_string b)%list.
Proof.
  induction a as [| x a IH]; simpl; [reflexivity | now rewrite IH].
Qed.

Lemma join_chars (rows : list string) (c : ascii) :
  In c (list_ascii_of_string (join newline rows)) ->
  c = "010"%char \/
  exists row, In row rows /\ In c (list_ascii_of_string row).
Proof.
  unfold join.
  induction rows as [| row rows IH]; intros Hin.
  - contradiction.
  - destruct rows as [| row' rows].
    + right. exists row. split; [now left | exact Hin].
    + change (String.concat newline (row :: row' :: rows))
        with (row ++ newline ++ String.concat newline (row' :: rows))%string
        in Hin.
      rewrite !list_ascii_append in Hin.
      apply in_app_or in Hin. destruct Hin as [Hin | Hin].
      * right. exists row. split; [now left | exact Hin].
      * apply in_app_or in Hin. destruct Hin as [Hin | Hin].
        -- left. simpl in Hin. destruct Hin as [Heq | []]. now symmetry.
        -- destruct (IH Hin) as [Hnl | (r & Hr & Hc)]; [now left |].
           right. exists r. split; [now right | exact Hc].
Qed.

(** X5.  A rendering holds nothing but characters of the ramp and the
    newlines between the rows. *)
Theorem output_alphabet (lib : Imaging) (file_path : string) (columns : Z)
    (scale : float) (chars art : string) (c : ascii) :
  imaging_contract lib ->
  image_to_ascii_try lib file_path columns scale chars = Ok art ->
  In c (list_ascii_of_string
          (image_to_ascii lib file_path columns scale chars)) ->
  c = "010"%char \/ In c (list_ascii_of_string chars).
Proof.
  intros Hc Htry Hin.
  rewrite (image_to_ascii_of_try _ _ _ _ _ _ Htry) in Hin.
  destruct (try_ok_inv lib file_path columns scale chars art Hc Htry)
    as (px & r & rows & _ & -> & Hf & _).
  destruct (join_chars rows c Hin) as [Hnl | (row & Hrow & Hcin)];
    [now left | right].
  clear - Hf Hrow Hcin.
  induction Hf as [| q s px' rows' Hqs Hrest IH]; [contradiction |].
  destruct Hrow as [-> | Hrow]; [| exact (IH Hrow)].
  eapply rendered_chars_in_ramp; eassumption.
Qed.

Lemma output_alphabet_witness :
  ";"%char = "010"%char \/ In ";"%char (list_ascii_of_string default_chars).
Proof.
  apply (output_alphabet (Solid.lib Solid.demo) "gray.png" 7 0.5%float
           default_chars
           (image_to_ascii (Solid.lib Solid.demo) "gray.png" 7 0.5%float
                           default_chars)).
  - apply solid_contract.
  - vm_compute. reflexivity.
  - vm_compute. left. reflexivity.
Defined.

Lemma length_append (a b : string) :
  String.length (a ++ b) = (String.length a + String.length b)%nat.
Proof.
  induction a as [| x a IH]; simpl; [reflexivity | now rewrite IH].
Qed.

Lemma join_length (rows : list string) (columns : Z) :
  Forall (fun row => len row = columns) rows ->
  len (join newline rows)
  = Z.of_nat (List.length rows) * columns
    + Z.max 0 (Z.of_nat (List.length rows) - 1).
Proof.
  unfold join.
  induction rows as [| row rows IH]; intros Hall.
  - reflexivity.
  - inversion Hall as [| x l Hrow Hrest]. clear Hall. subst x l.
    specialize (IH Hrest).
    destruct rows as [| row' rows].
    + cbn [String.concat List.length]. rewrite Hrow. lia.
    + change (String.concat newline (row :: row' :: rows))
        with (row ++ newline ++ String.concat newline (row' :: rows))%string.
      unfold len in *. rewrite !length_append.
      change (String.length newline) with 1%nat.
      cbn [List.length] in *. lia.
Qed.

(** X6.  A rendering of [new_height] rows has
    [new_height * columns] ramp characters and [new_height - 1]
    newlines: there is no newline after the last row, and a rendering
    without rows is the empty string. *)
Theorem output_length (lib : Imaging) (file_path : string) (columns : Z)
    (scale : float) (chars : string) (im : image lib) (art : string) :
  imaging_contract lib ->
  Image_open lib file_path = Ok im ->
  image_to_ascii_try lib file_path columns scale chars = Ok art ->
  exists new_height,
    new_height_of scale (fst (image_size lib im)) (snd (image_size lib im))
                  columns = Ok new_height /\
    0 <= new_height /\
    len (image_to_ascii lib file_path columns scale chars)
    = new_height * columns + Z.max 0 (new_height - 1).
Proof.
  intros Hc Hopen Htry.
  rewrite (image_to_ascii_of_try _ _ _ _ _ _ Htry).
  destruct (try_ok_inv lib file_path columns scale chars art Hc Htry)
    as (px & r & rows & Hpx & -> & Hf & Hcols).
  destruct (pixel_values_shape lib file_path columns scale px Hc Hpx)
    as (im' & n & Hopen' & Hn & Hlen & _).
  rewrite Hopen in Hopen'. injection Hopen' as <-.
  exists n. split; [exact Hn |].
  apply Forall2_length in Hf.
  split; [lia |].
  rewrite (join_length rows columns Hcols). rewrite <- Hf, Hlen. reflexivity.
Qed.

Lemma output_length_witness :
  exists new_height,
    new_height_of 0.5%float 4 3 7 = Ok new_height /\
    0 <= new_height /\
    len (image_to_ascii (Solid.lib Solid.demo) "gray.png" 7 0.5%float
                        default_chars)
    = new_height * 7 + Z.max 0 (new_height - 1).
Proof.
  apply (output_length (Solid.lib Solid.demo) "gray.png" 7 0.5%float
           default_chars (Solid.Img 4 3 100 "RGB")
           (image_to_ascii (Solid.lib Solid.demo) "gray.png" 7 0.5%float
                           default_chars)).
  - apply solid_contract.
  - reflexivity.
  - vm_compute. reflexivity.
Defined.

(* ================================================================== *)
(** ** More on the error paths *)

(** X7.  An image whose width is 0 makes [height / width] raise: the
    function returns ["An error occurred: division by zero"], whatever
    the columns, the scale and the ramp. *)
Theorem zero_width_is_error (lib : Imaging) (file_path : string)
    (columns : Z) (scale : float) (chars : string) (im : image lib) :
  Image_open lib file_path = Ok im ->
  fst (image_size lib im) = 0 ->
  image_to_ascii lib file_path columns scale chars
  = "An error occurred: division by zero".
Proof.
  intros Hopen Hw.
  unfold image_to_ascii, image_to_ascii_try, pixel_values_of.
  rewrite Hopen. simpl.
  destruct (image_size lib im) as [width height]. simpl in Hw. subst width.
  reflexivity.
Qed.

Lemma zero_width_is_error_witness :
  image_to_ascii (Solid.lib [("flat.png", Ok (Solid.Img 0 5 0 "RGB"))])
                 "flat.png" 80 0.5%float default_chars
  = "An error occurred: division by zero".
Proof.
  apply (zero_width_is_error (Solid.lib [("flat.png", Ok (Solid.Img 0 5 0 "RGB"))])
           "flat.png" 80 0.5%float default_chars (Solid.Img 0 5 0 "RGB")).
  - reflexivity.
  - reflexivity.
Defined.

Lemma Prim2SF_nan (x : float) : is_nan x = true -> Prim2SF x = S754_nan.
Proof.
  intros H. unfold Prim2SF. rewrite H. reflexivity.
Qed.

Lemma nan_mul_l (x y : float) :
  Prim2SF x = S754_nan -> Prim2SF (x * y) = S754_nan.
Proof.
  intros H. rewrite mul_spec, H. reflexivity.
Qed.

(** X8.  With a NaN [scale], an image of nonzero width and a [columns]
    that fits a float, the height cannot be computed: [int] raises, and
    the function returns
    ["An error occurred: cannot convert float NaN to integer"]. *)
Theorem nan_scale_is_error (lib : Imaging) (file_path : string)
    (columns : Z) (scale : float) (chars : string) (im : image lib) :
  Image_open lib file_path = Ok im ->
  fst (image_size lib im) <> 0 ->
  is_infinity (float_of_int columns) = false ->
  is_nan scale = true ->
  new_height_of scale (fst (image_size lib im)) (snd (image_size lib im))
                columns
  = Raise (Exn ValueError "cannot convert float NaN to integer") /\
  image_to_ascii lib file_path columns scale chars
  = "An error occurred: cannot convert float NaN to integer".
Proof.
  intros Hopen Hw Hcols Hnan.
  destruct (image_size lib im) as [width height] eqn:Hsize. simpl in Hw |- *.
  assert (Hh : new_height_of scale width height columns
               = Raise (Exn ValueError "cannot convert float NaN to integer")).
  { unfold new_height_of, truediv.
    destruct (Z.eqb_spec width 0); [contradiction |]. simpl.
    unfold float_mul_int. rewrite Hcols. simpl.
    unfold int_of_float.
    rewrite nan_mul_l; [reflexivity |].
    apply nan_mul_l. apply Prim2SF_nan. exact Hnan. }
  split; [exact Hh |].
  unfold image_to_ascii, image_to_ascii_try, pixel_values_of.
  rewrite Hopen. simpl. rewrite Hsize, Hh. reflexivity.
Qed.

Lemma nan_scale_is_error_witness :
  new_height_of nan 4 3 7
  = Raise (Exn ValueError "cannot convert float NaN to integer") /\
  image_to_ascii (Solid.lib Solid.demo) "gray.png" 7 nan default_chars
  = "An error occurred: cannot convert float NaN to integer".
Proof.
  apply (nan_scale_is_error (Solid.lib Solid.demo) "gray.png" 7 nan
           default_chars (Solid.Img 4 3 100 "RGB")).
  - reflexivity.
  - simpl. discriminate.
  - vm_compute. reflexivity.
  - vm_compute. reflexivity.
Defined.

(** X9.  When the library refuses empty sizes, an image whose computed
    height is below 1, or a [columns] below 1, yields no rendering: the
    resize raises and the [try] block ends with that exception. *)
Theorem empty_grid_is_error (lib : Imaging) (file_path : string)
    (columns : Z) (scale : float) (chars : string) (im : image lib)
    (new_height : Z) :
  refuses_empty_size lib ->
  Image_open lib file_path = Ok im ->
  new_height_of scale (fst (image_size lib im)) (snd (image_size lib im))
                columns = Ok new_height ->
  columns < 1 \/ new_height < 1 ->
  exists e,
    image_resize lib im (columns, new_height) = Raise e /\
    image_to_ascii_try lib file_path columns scale chars = Raise e.
Proof.
  intros Href Hopen Hh Hdeg.
  destruct (Href im columns new_height Hdeg) as (e & He).
  exists e. split; [exact He |].
  unfold image_to_ascii_try, pixel_values_of.
  rewrite Hopen. simpl.
  destruct (image_size lib im) as [width height]. simpl in Hh.
  rewrite Hh. simpl. rewrite He. reflexivity.
Qed.

Lemma solid_refuses_empty (fs : Solid.filesystem) :
  refuses_empty_size (Solid.lib fs).
Proof.
  intros im w h Hdeg. simpl. unfold Solid.resize.
  destruct (Z.ltb_spec w 1) as [Hw | Hw]; simpl.
  - eexists. reflexivity.
  - destruct (Z.ltb_spec h 1) as [Hh | Hh]; [| lia].
    eexists. reflexivity.
Qed.

Lemma empty_grid_is_error_witness :
  exists e,
    image_resize (Solid.lib [("wide.png", Ok (Solid.Img 1000 1 7 "RGB"))])
                 (Solid.Img 1000 1 7 "RGB") (80, 0) = Raise e /\
    image_to_ascii_try (Solid.lib [("wide.png", Ok (Solid.Img 1000 1 7 "RGB"))])
                       "wide.png" 80 0.5%float default_chars = Raise e.
Proof.
  apply (empty_grid_is_error
           (Solid.lib [("wide.png", Ok (Solid.Img 1000 1 7 "RGB"))])
           "wide.png" 80 0.5%float default_chars (Solid.Img 1000 1 7 "RGB") 0).
  - apply solid_refuses_empty.
  - reflexivity.
  - vm_compute. reflexivity.
  - right. lia.
Defined.

(** X10.  When the library refuses empty sizes, a [columns] below 1
    never gives a rendering, whatever the file, the scale and the ramp:
    the [try] block raises, and the function returns the file-not-found
    message or a string that starts with ["An error occurred: "]. *)
Theorem nonpositive_columns_never_render (lib : Imaging) (file_path : string)
    (columns : Z) (scale : float) (chars : string) :
  refuses_empty_size lib ->
  columns < 1 ->
  exists e,
    image_to_ascii_try lib file_path columns scale chars = Raise e /\
    image_to_ascii lib file_path columns scale chars
    = if is_FileNotFoundError e
      then "Error: The file was not found. Check the file path."
      else ("An error occurred: " ++ exn_str e)%string.
Proof.
  intros Href Hcols.
  assert (H : exists e,
             image_to_ascii_try lib file_path columns scale chars = Raise e).
  { unfold image_to_ascii_try, pixel_values_of.
    destruct (Image_open lib file_path) as [im | e]; simpl;
      [| exists e; reflexivity].
    destruct (image_size lib im) as [width height].
    destruct (new_height_of scale width height columns) as [n | e]; simpl;
      [| exists e; reflexivity].
    destruct (Href im columns n (or_introl Hcols)) as (e & He).
    exists e. rewrite He. reflexivity. }
  destruct H as (e & He). exists e.
  split; [exact He |].
  apply image_to_ascii_of_raise. exact He.
Qed.

Lemma nonpositive_columns_never_render_witness :
  exists e,
    image_to_ascii_try (Solid.lib Solid.demo) "gray.png" 0 0.5%float
                       default_chars = Raise e /\
    image_to_ascii (Solid.lib Solid.demo) "gray.png" 0 0.5%float default_chars
    = if is_FileNotFoundError e
      then "Error: The file was not found. Check the file path."
      else ("An error occurred: " ++ exn_str e)%string.
Proof.
  apply (nonpositive_columns_never_render (Solid.lib Solid.demo) "gray.png" 0
           0.5%float default_chars).
  - apply solid_refuses_empty.
  - lia.
Defined.

(* ================================================================== *)
(** ** More on the script *)

(** X11.  When the render of the input succeeds, its value never starts
    with ["Error:"] (its first character is a character of the default
    ramp, or it is empty), so the script prints nothing and writes
    exactly that value to the output path. *)
Theorem script_writes_rendering (lib : Imaging)
    (image_path output_path : string) (w : world) (art : string) :
  imaging_contract lib ->
  image_to_ascii_try lib image_path default_columns default_scale default_chars
    = Ok art ->
  startswith art "Error:" = false /\
  stdout (script lib image_path output_path w) = stdout w /\
  files (script lib image_path output_path w) output_path = Some art.
Proof.
  intros Hc Htry.
  pose proof (script_on_success lib image_path output_path w art Hc Htry)
    as Hs.
  split.
  - unfold script in Hs.
    rewrite (image_to_ascii_of_try _ _ _ _ _ _ Htry) in Hs. cbv zeta in Hs.
    destruct (startswith art "Error:"); [| reflexivity].
    exfalso.
    assert (Hf : files (print art w) output_path
                 = files (write_file output_path art w) output_path)
      by (rewrite Hs; reflexivity).
    assert (Ho : stdout (print art w) = stdout (write_file output_path art w))
      by (rewrite Hs; reflexivity).
    simpl in Ho.
    apply (f_equal (@List.length string)) in Ho.
    rewrite length_app in Ho. simpl in Ho. lia.
  - rewrite Hs. simpl. rewrite String.eqb_refl. split; reflexivity.
Qed.

Lemma script_writes_rendering_witness :
  startswith
    (image_to_ascii (Solid.lib Solid.demo_ok) "img.png" default_columns
                    default_scale default_chars) "Error:" = false /\
  stdout (script (Solid.lib Solid.demo_ok) "img.png" "ascii_art.txt"
                 Solid.empty_world) = stdout Solid.empty_world /\
  files (script (Solid.lib Solid.demo_ok) "img.png" "ascii_art.txt"
                Solid.empty_world) "ascii_art.txt"
  = Some (image_to_ascii (Solid.lib Solid.demo_ok) "img.png" default_columns
                         default_scale default_chars).
Proof.
  apply (script_writes_rendering (Solid.lib Solid.demo_ok) "img.png"
           "ascii_art.txt" Solid.empty_world
           (image_to_ascii (Solid.lib Solid.demo_ok) "img.png" default_columns
                           default_scale default_chars)).
  - apply solid_contract.
  - vm_compute. reflexivity.
Defined.

(** X12.  When the render of the input fails with anything but a
    [FileNotFoundError], the script does not see a failure: it prints
    nothing and the output path receives
    ["An error occurred: " ++ str(e)]. *)
Theorem script_writes_other_failures (lib : Imaging)
    (image_path output_path : string) (w : world) (e : exn) :
  image_to_ascii_try lib image_path default_columns default_scale default_chars
    = Raise e ->
  is_FileNotFoundError e = false ->
  startswith ("An error occurred: " ++ exn_str e) "Error:" = false /\
  stdout (script lib image_path output_path w) = stdout w /\
  files (script lib image_path output_path w) output_path
  = Some ("An error occurred: " ++ exn_str e)%string.
Proof.
  intros Htry Hcls.
  rewrite (script_on_other_failure lib image_path output_path w e Htry Hcls).
  simpl. rewrite String.eqb_refl.
  repeat split.
Qed.

Lemma script_writes_other_failures_witness :
  startswith
    ("An error occurred: "
       ++ exn_str (Exn PermissionError
                       "[Errno 13] Permission denied: 'secret.png'"))
    "Error:" = false /\
  stdout (script (Solid.lib Solid.demo) "secret.png" "out.txt"
                 Solid.empty_world) = stdout Solid.empty_world /\
  files (script (Solid.lib Solid.demo) "secret.png" "out.txt"
                Solid.empty_world) "out.txt"
  = Some ("An error occurred: "
            ++ exn_str (Exn PermissionError
                            "[Errno 13] Permission denied: 'secret.png'"))%string.
Proof.
  apply (script_writes_other_failures (Solid.lib Solid.demo) "secret.png"
           "out.txt" Solid.empty_world
           (Exn PermissionError "[Errno 13] Permission denied: 'secret.png'")).
  - vm_compute. reflexivity.
  - reflexivity.
Defined.

(** X13.  The script leaves every file other than the output path as it
    was, and it never both prints and writes: either it prints one line
    and no file changes, or it prints nothing. *)
Theorem script_frame (lib : Imaging) (image_path output_path : string)
    (w : world) :
  (forall p, p <> output_path ->
             files (script lib image_path output_path w) p = files w p) /\
  ((exists line,
      stdout (script lib image_path output_path w) = (stdout w ++ [line])%list /\
      forall p, files (script lib image_path output_path w) p = files w p) \/
   stdout (script lib image_path output_path w) = stdout w).
Proof.
  unfold script.
  destruct (startswith
              (image_to_ascii lib image_path default_columns default_scale
                              default_chars) "Error:").
  - split.
    + intros p _. reflexivity.
    + left. eexists. split; [reflexivity |]. intros p. reflexivity.
  - split.
    + intros p Hp. simpl.
      destruct (String.eqb_spec p output_path); [contradiction | reflexivity].
    + right. reflexivity.
Qed.

(* ================================================================== *)
(** ** Changing the ramp *)

Lemma Forall2_map_l {A B C : Type} (R : B -> C -> Prop) (f : A -> B)
    (l : list A) (l' : list C) :
  Forall2 (fun a c => R (f a) c) l l' -> Forall2 R (map f l) l'.
Proof.
  intros H. induction H as [| a c l l' Hac Hrest IH]; simpl; constructor;
    assumption.
Qed.

Lemma rows_spell (chars : string) (r : Z) (px : list (list Z))
    (rows : list string) :
  Forall2 (row_rendered chars r) px rows ->
  Forall2 (spells chars) (map (map (pixel_index chars r)) px) rows.
Proof.
  intros H. apply Forall2_map_l.
  eapply Forall2_impl; [| exact H].
  intros row s Hrow. unfold spells. apply Forall2_map_l. exact Hrow.
Qed.

(** X14.  The index of a pixel depends on the ramp through its length
    only: two ramps of the same length give renderings that spell the
    same matrix of ramp positions, each with its own characters.  So
    replacing the ramp by its reverse, or by any ramp as long, swaps
    characters position by position and leaves the layout alone. *)
Theorem same_length_ramps (lib : Imaging) (file_path : string) (columns : Z)
    (scale : float) (chars1 chars2 : string) (px : list (list Z)) :
  imaging_contract lib ->
  pixel_values_of lib file_path columns scale = Ok px ->
  1 <= len chars1 ->
  len chars1 = len chars2 ->
  exists idx rows1 rows2,
    idx = map (map (pixel_index chars1 (255 / len chars1))) px /\
    image_to_ascii lib file_path columns scale chars1 = join newline rows1 /\
    image_to_ascii lib file_path columns scale chars2 = join newline rows2 /\
    Forall2 (spells chars1) idx rows1 /\
    Forall2 (spells chars2) idx rows2.
Proof.
  intros Hc Hpx Hn Hlen.
  pose proof (pixel_values_uint8 lib file_path columns scale px Hc Hpx) as Hu.
  destruct (try_from_matrix lib file_path columns scale chars1 px Hpx Hu Hn)
    as (rows1 & Htry1 & Hf1).
  destruct (try_from_matrix lib file_path columns scale chars2 px Hpx Hu)
    as (rows2 & Htry2 & Hf2); [lia |].
  exists (map (map (pixel_index chars1 (255 / len chars1))) px), rows1, rows2.
  split; [reflexivity |].
  split; [apply image_to_ascii_of_try; exact Htry1 |].
  split; [apply image_to_ascii_of_try; exact Htry2 |].
  split; [apply rows_spell; exact Hf1 |].
  apply rows_spell in Hf2.
  assert (Hsame : pixel_index chars2 (255 / len chars2)
                  = pixel_index chars1 (255 / len chars1))
    by (unfold pixel_index; rewrite Hlen; reflexivity).
  rewrite Hsame in Hf2. exact Hf2.
Qed.

Lemma same_length_ramps_witness :
  exists idx rows1 rows2,
    idx = map (map (pixel_index " .,:;ox%#@" (255 / len " .,:;ox%#@")))
              (repeat (repeat 100 7%nat) 2%nat) /\
    image_to_ascii (Solid.lib Solid.demo) "gray.png" 7 0.5%float " .,:;ox%#@"
      = join newline rows1 /\
    image_to_ascii (Solid.lib Solid.demo) "gray.png" 7 0.5%float "@#%xo;:,. "
      = join newline rows2 /\
    Forall2 (spells " .,:;ox%#@") idx rows1 /\
    Forall2 (spells "@#%xo;:,. ") idx rows2.
Proof.
  apply (same_length_ramps (Solid.lib Solid.demo) "gray.png" 7 0.5%float
           " .,:;ox%#@" "@#%xo;:,. " (repeat (repeat 100 7%nat) 2%nat)).
  - apply solid_contract.
  - vm_compute. reflexivity.
  - vm_compute. discriminate.
  - reflexivity.
Defined.
